(** * Authentication subsystem of the blog application

    A shallow embedding of [lib/jwt.js] (token service and authorization
    gate) and of the three route handlers [api/auth/signup], [api/auth/login]
    and [api/auth/me], followed by the properties the specification states
    about them.

    Conventions.
    - JavaScript values are the inductive [jsval]; objects are association
      lists in property order; a property that is absent reads [JUndefined].
    - An exception is a record with the [name], [message] and [errors] the
      handlers inspect; a computation that may throw yields a [result].
    - Code that threads effects (the request object of the gate, the user
      collection of the routes) runs in the state-and-exception monad [M].
    - [Date.now()] is an integer number of milliseconds, passed as [now].
    - Text is held as its UTF-8 bytes; where JavaScript counts, it counts
      UTF-16 code units ([utf16_length]).
    - What lives outside the repository (the [jsonwebtoken] and [ms]
      packages, the mongoose model [User]) enters as an interface: a class
      whose operations the code calls. *)

From Stdlib Require Import ZArith List String Ascii Bool Lia DecimalString.
Import ListNotations.

Open Scope string_scope.
Open Scope Z_scope.

(** ** JavaScript values *)

#[local] Unset Elimination Schemes.

Inductive jsval : Type :=
| JUndefined
| JNull
| JBool (b : bool)
| JNum (n : Z)
| JStr (s : string)
| JArr (items : list jsval)
| JObj (fields : list (string * jsval)).

#[local] Set Elimination Schemes.

(** An object: its own properties, in insertion order. *)
Definition jsobj : Type := list (string * jsval).

(** [o.k]: the value of property [k], [undefined] when [o] has none. *)
Fixpoint js_get (o : jsobj) (k : string) : jsval :=
  match o with
  | [] => JUndefined
  | (k', v) :: rest => if String.eqb k' k then v else js_get rest k
  end.

(** [Object.keys(o)]. *)
Definition js_keys (o : jsobj) : list string := map fst o.

(** [k in o] for an own property. *)
Definition js_has (o : jsobj) (k : string) : bool :=
  existsb (String.eqb k) (js_keys o).

(** ToBoolean: [undefined], [null], [false], [0] and the empty string are
    falsy, every other value (objects and arrays included) is truthy. *)
Definition truthy (v : jsval) : bool :=
  match v with
  | JUndefined | JNull => false
  | JBool b => b
  | JNum n => negb (n =? 0)
  | JStr s => negb (String.eqb s "")
  | JArr _ | JObj _ => true
  end.

(** [s.substring(n)]: [s] without its first [n] characters. *)
Fixpoint substring_from (n : nat) (s : string) : string :=
  match n, s with
  | O, _ => s
  | S _, EmptyString => EmptyString
  | S n', String _ rest => substring_from n' rest
  end.

(** [s.startsWith(p)]. *)
Definition startsWith (s p : string) : bool := String.prefix p s.

(** [o.k = v] on a copy of [o]: a property [o] has keeps its place, a new
    one comes last. *)
Fixpoint js_set (o : jsobj) (k : string) (v : jsval) : jsobj :=
  match o with
  | [] => [(k, v)]
  | (k', v') :: rest =>
      if String.eqb k' k then (k, v) :: rest else (k', v') :: js_set rest k v
  end.

(** The UTF-16 code units one byte of UTF-8 text stands for: a
    continuation byte adds nothing to the unit its leading byte opened, and
    the leading byte of a four-byte sequence opens a surrogate pair. *)
Definition utf16_units (c : ascii) : nat :=
  let n := nat_of_ascii c in
  if (n <? 128)%nat then 1%nat
  else if (n <? 192)%nat then 0%nat
  else if (n <? 240)%nat then 1%nat
  else 2%nat.

(** [s.length]: the number of UTF-16 code units of the text. *)
Fixpoint utf16_length (s : string) : nat :=
  match s with
  | EmptyString => 0%nat
  | String c rest => (utf16_units c + utf16_length rest)%nat
  end.

(** [parts.join(sep)]. *)
Definition join (sep : string) (parts : list string) : string :=
  String.concat sep parts.

(** ** Exceptions and results *)

(** What is thrown: an error object, read by the handlers through its
    [name], its [message] and its [errors]. (The packages and the model
    throw error objects; a thrown [null] or [undefined], on which reading
    a property throws again, is left out.) *)
Record exn : Type := mkExn {
  exn_name : string;
  exn_message : string;
  (** [error.errors]: absent on an ordinary error; on a mongoose
      ValidationError the failed fields, each with its message. *)
  exn_errors : option (list (string * string))
}.

(** [new Error(message)]. *)
Definition Error (message : string) : exn := mkExn "Error" message None.

Definition TypeError (message : string) : exn := mkExn "TypeError" message None.

Inductive result (A : Type) : Type :=
| Ok (a : A)
| Throw (e : exn).
Arguments Ok {A} a.
Arguments Throw {A} e.

(** ** State and exceptions *)

Definition M (S A : Type) : Type := S -> result A * S.

Definition ret {S A} (a : A) : M S A := fun s => (Ok a, s).

Definition throw {S A} (e : exn) : M S A := fun s => (Throw e, s).

Definition bind {S A B} (m : M S A) (f : A -> M S B) : M S B :=
  fun s =>
    match m s with
    | (Ok a, s') => f a s'
    | (Throw e, s') => (Throw e, s')
    end.

(** [try { body } catch (error) { handler }]: the state reached when the
    exception was thrown is the state the handler starts from. *)
Definition try_catch {S A} (body : M S A) (handler : exn -> M S A) : M S A :=
  fun s =>
    match body s with
    | (Ok a, s') => (Ok a, s')
    | (Throw e, s') => handler e s'
    end.

Definition lift {S A} (r : result A) : M S A := fun s => (r, s).

Definition get {S} : M S S := fun s => (Ok s, s).

Notation "x <- m ;; k" := (bind m (fun x => k))
  (at level 61, m at next level, right associativity).
Notation "m ;;; k" := (bind m (fun _ => k))
  (at level 61, right associativity).

(** ** HTTP responses *)

(** [res.status(s).json(body)] and [NextResponse.json(body, {status: s})]. *)
Record response : Type := mkResponse {
  status : Z;
  body : jsobj
}.

Definition failure (s : Z) (message : string) : response :=
  mkResponse s [("success", JBool false); ("message", JStr message)].

(** ** jsonwebtoken *)

(** The payload of a token: one object holding the caller's claims beside
    the registered claims [iat], [exp] and [nbf] (seconds since the epoch)
    when it has them. *)
Definition jwt_payload : Type := jsobj.

(** A token once its compact serialisation has been parsed. *)
Record jws : Type := mkJws {
  jws_payload : jwt_payload;
  jws_signature : string
}.

(** [decoded.k] on a decoded payload. *)
Definition payload_get (d : jwt_payload) (k : string) : jsval :=
  js_get d k.

Definition JsonWebTokenError (message : string) : exn :=
  mkExn "JsonWebTokenError" message None.

Definition TokenExpiredError : exn := mkExn "TokenExpiredError" "jwt expired" None.

Definition NotBeforeError : exn := mkExn "NotBeforeError" "jwt not active" None.

(** The package as the code uses it. *)
Class Jsonwebtoken : Type := {
  (** The [ms] package: a time span such as [7d] in milliseconds, or
      nothing when the text is not a time span. *)
  ms : string -> option Z;
  (** The keyed signature of a payload (HMAC over the signing input).
      Nothing is assumed of it: two keys may sign a payload alike. *)
  hmac : string -> jwt_payload -> string;
  (** The compact serialisation and its parser; a string that is not a
      well-formed token (three parts, a header naming an HMAC algorithm, a
      payload to read claims from) parses to nothing, and a payload that
      is a text or a number is one without claims. *)
  jws_encode : jws -> string;
  jws_decode : string -> option jws
}.

(** The process: [process.env]. *)
Class Process : Type := {
  env : string -> option string
}.

Section Jwt.

Context {lib : Jsonwebtoken} {proc : Process}.

(** [Math.floor(Date.now() / 1000)]. *)
Definition clockTimestamp (now : Z) : Z := now / 1000.

(** [jwt.sign] accepts a registered claim of the payload only as a number. *)
Definition claim_is_number (payload : jsobj) (k : string) : bool :=
  negb (js_has payload k)
  || match js_get payload k with
     | JNum _ => true
     | _ => false
     end.

(** [payload.iat || Math.floor(Date.now() / 1000)]. *)
Definition issue_time (payload : jsobj) (now : Z) : Z :=
  match js_get payload "iat" with
  | JNum n => if n =? 0 then clockTimestamp now else n
  | _ => clockTimestamp now
  end.

(** The payload with [iat] and [exp] written into it. *)
Definition stamped (payload : jsobj) (iat exp : Z) : jsobj :=
  js_set (js_set payload "iat" (JNum iat)) "exp" (JNum exp).

(** The token [jwt.sign] builds for a span of [span] milliseconds: [iat]
    is the issue time and [exp] is [Math.floor(iat + span / 1000)]. *)
Definition jws_sign (payload : jsobj) (secret : string) (span now : Z) : jws :=
  let timestamp := issue_time payload now in
  let p := stamped payload timestamp ((1000 * timestamp + span) / 1000) in
  mkJws p (hmac secret p).

(** [jwt.sign(payload, secret, {expiresIn})] with a textual [expiresIn]:
    it throws on a payload whose [iat], [exp] or [nbf] is not a number, on
    a payload that has an [exp] of its own, and on a text that [ms] does
    not understand. (The messages are the library's without their quotation
    marks.) *)
Definition jwt_sign (payload : jsobj) (secret expiresIn : string) (now : Z)
  : result string :=
  if negb (claim_is_number payload "iat" && claim_is_number payload "exp"
           && claim_is_number payload "nbf") then
    Throw (Error "registered claim should be a number of seconds")
  else if js_has payload "exp" then
    Throw (Error "Bad options.expiresIn option the payload already has an exp property.")
  else
    match ms expiresIn with
    | None => Throw (Error "expiresIn should be a number of seconds or string representing a timespan")
    | Some span => Ok (jws_encode (jws_sign payload secret span now))
    end.

(** The expiry test of [jwt.verify]: an [exp] that is not a number is
    refused, and so is one the clock has reached. *)
Definition check_exp (payload : jsobj) (clock : Z) : result jwt_payload :=
  match js_get payload "exp" with
  | JUndefined => Ok payload
  | JNum e => if e <=? clock then Throw TokenExpiredError else Ok payload
  | _ => Throw (JsonWebTokenError "invalid exp value")
  end.

(** The not-before test, which comes first: an [nbf] that is not a number
    is refused, and so is one still ahead of the clock. *)
Definition check_claims (payload : jsobj) (clock : Z) : result jwt_payload :=
  match js_get payload "nbf" with
  | JUndefined => check_exp payload clock
  | JNum n => if clock <? n then Throw NotBeforeError else check_exp payload clock
  | _ => Throw (JsonWebTokenError "invalid nbf value")
  end.

(** [jwt.verify(token, secret)] with the default options: the token is
    parsed, its signature is recomputed under [secret] and compared, then
    the payload's [nbf] and [exp] are tested against
    [clockTimestamp]. (Audience, issuer, subject and the other tests run
    only on options [verifyToken] does not pass.) *)
Definition jwt_verify (token secret : string) (now : Z) : result jwt_payload :=
  match jws_decode token with
  | None => Throw (JsonWebTokenError "jwt malformed")
  | Some j =>
      if String.eqb (hmac secret (jws_payload j)) (jws_signature j) then
        check_claims (jws_payload j) (clockTimestamp now)
      else Throw (JsonWebTokenError "invalid signature")
  end.

(** The ways a token is refused, as tests on the token. *)
Definition malformed (token : string) : bool :=
  match jws_decode token with
  | None => true
  | Some _ => false
  end.

Definition signature_matches (secret token : string) : bool :=
  match jws_decode token with
  | None => false
  | Some j => String.eqb (hmac secret (jws_payload j)) (jws_signature j)
  end.

(** A value that is there and is not a number. *)
Definition not_a_number (v : jsval) : bool :=
  match v with
  | JUndefined | JNum _ => false
  | _ => true
  end.

(** The token's [nbf] or [exp] is not a number. *)
Definition invalid_claims (token : string) : bool :=
  match jws_decode token with
  | Some j =>
      not_a_number (js_get (jws_payload j) "nbf")
      || not_a_number (js_get (jws_payload j) "exp")
  | None => false
  end.

(** The token's not-before time is still ahead of the clock. *)
Definition not_yet_valid (token : string) (now : Z) : bool :=
  match jws_decode token with
  | Some j =>
      match js_get (jws_payload j) "nbf" with
      | JNum n => clockTimestamp now <? n
      | _ => false
      end
  | None => false
  end.

(** The clock, in seconds, has reached the expiry. *)
Definition expired (token : string) (now : Z) : bool :=
  match jws_decode token with
  | Some j =>
      match js_get (jws_payload j) "exp" with
      | JNum e => e <=? clockTimestamp now
      | _ => false
      end
  | None => false
  end.

(** The clock, in seconds, is past the expiry. *)
Definition past_expiry (token : string) (now : Z) : bool :=
  match jws_decode token with
  | Some j =>
      match js_get (jws_payload j) "exp" with
      | JNum e => e <? clockTimestamp now
      | _ => false
      end
  | None => false
  end.

(** [token] parses and carries the signature [secret] gives its payload. *)
Definition signed_with (secret token : string) : Prop :=
  exists j, jws_decode token = Some j /\
            jws_signature j = hmac secret (jws_payload j).

(** ** lib/jwt.js *)

(** [process.env.NAME || fallback]: unset and empty are both falsy. *)
Definition env_or (name fallback : string) : string :=
  match env name with
  | Some v => if truthy (JStr v) then v else fallback
  | None => fallback
  end.

Definition JWT_SECRET : string := env_or "JWT_SECRET" "your-super-secret-jwt-key".

Definition JWT_EXPIRES_IN : string := env_or "JWT_EXPIRES_IN" "7d".

Definition generateToken (payload : jsobj) (now : Z) : result string :=
  jwt_sign payload JWT_SECRET JWT_EXPIRES_IN now.

Definition verifyToken (token : string) (now : Z) : result jwt_payload :=
  match jwt_verify token JWT_SECRET now with
  | Ok decoded => Ok decoded
  | Throw _ => Throw (Error "Invalid token")
  end.

(** The header is [undefined] (or [null]) when absent; the result is [null]
    or the text after the seven characters of the prefix. *)
Definition extractTokenFromHeader (authHeader : option string) : option string :=
  match authHeader with
  | None => None
  | Some h =>
      if negb (truthy (JStr h)) || negb (startsWith h "Bearer ") then None
      else Some (substring_from 7 h)
  end.

(** ** The authorization gate *)

(** The request object of an API route: [req.headers.authorization] and the
    property [req.user] the gate writes. *)
Record request : Type := mkRequest {
  req_authorization : option string;
  req_user : option jwt_payload
}.

(** What calling the wrapped handler does: it returns (or its promise
    resolves with) a response, it throws synchronously, or it returns a
    promise that rejects. *)
Inductive completion : Type :=
| Returned (r : response)
| Thrown (e : exn)
| Rejected (e : exn).

(** How the promise of the wrapping function settles. *)
Inductive settled : Type :=
| Resolved (r : response)
| RejectedWith (e : exn).

(** What the gate does, in order: tokens handed to [verifyToken] and calls
    of the handler with the request as it was at the call. *)
Inductive gate_event : Type :=
| Verify (token : string)
| Invoke (req : request).

Record gate_state : Type := mkGate {
  g_req : request;
  g_trace : list gate_event
}.

(** The requests the handler was called with, and the tokens verified. *)
Fixpoint invocations (trace : list gate_event) : list request :=
  match trace with
  | [] => []
  | Invoke r :: rest => r :: invocations rest
  | Verify _ :: rest => invocations rest
  end.


Definition gate_emit (e : gate_event) : M gate_state unit :=
  fun s => (Ok tt, mkGate (g_req s) (g_trace s ++ [e])).

(** [verifyToken(token)], recorded. *)
Definition gate_verifyToken (token : string) (now : Z) : M gate_state jwt_payload :=
  gate_emit (Verify token) ;;; lift (verifyToken token now).

(** [req.user = decoded]. *)
Definition set_user (decoded : jwt_payload) : M gate_state unit :=
  fun s => (Ok tt, mkGate (mkRequest (req_authorization (g_req s)) (Some decoded))
                          (g_trace s)).

(** [return handler(req, res)] inside the [try] of an async function: a
    synchronous throw reaches the [catch], a rejected promise does not. *)
Definition gate_invoke (handler : request -> completion) : M gate_state settled :=
  s <- get ;;
  gate_emit (Invoke (g_req s)) ;;;
  match handler (g_req s) with
  | Returned r => ret (Resolved r)
  | Thrown e => throw e
  | Rejected e => ret (RejectedWith e)
  end.

Definition verifyJWT (handler : request -> completion) (now : Z)
  : M gate_state settled :=
  try_catch
    (s <- get ;;
     let authHeader := req_authorization (g_req s) in
     match extractTokenFromHeader authHeader with
     | None => ret (Resolved (failure 401 "Access denied. No token provided."))
     | Some token =>
         if negb (truthy (JStr token)) then
           ret (Resolved (failure 401 "Access denied. No token provided."))
         else
           decoded <- gate_verifyToken token now ;;
           set_user decoded ;;;
           gate_invoke handler
     end)
    (fun _ => ret (Resolved (failure 401 "Invalid token."))).

(** The two refusals of the gate. *)
Definition denied : response := failure 401 "Access denied. No token provided.".

Definition invalid : response := failure 401 "Invalid token.".

(** The request with the decoded claims attached. *)
Definition attach (req : request) (decoded : jwt_payload) : request :=
  mkRequest (req_authorization req) (Some decoded).

(** The gate run on a request nothing has been done to yet. *)
Definition run_gate (handler : request -> completion) (now : Z) (req : request)
  : result settled * gate_state :=
  verifyJWT handler now (mkGate req []).

End Jwt.

(** ** The route handlers *)

(** Reading a property, [v.k], for the property names the routes use: a
    read from [undefined] or [null] throws; strings and arrays have a
    [length]; an object gives its own property. *)
Definition js_prop (v : jsval) (k : string) : result jsval :=
  match v with
  | JUndefined | JNull => Throw (TypeError "Cannot read properties of null or undefined")
  | JObj o => Ok (js_get o k)
  | JStr s =>
      Ok (if String.eqb k "length" then JNum (Z.of_nat (utf16_length s))
          else JUndefined)
  | JArr items =>
      Ok (if String.eqb k "length" then JNum (Z.of_nat (List.length items))
          else JUndefined)
  | JBool _ | JNum _ => Ok JUndefined
  end.

(** The language runtime: what [v < n] gives when [v] is a string, an array
    or an object and has to be converted to a number first. *)
Class Runtime : Type := {
  coerce_lt : jsval -> Z -> result bool
}.

(** [v < n] for a number [n]: [undefined] converts to NaN (never less),
    [null] to 0, [true] to 1 and [false] to 0. *)
Definition js_lt {rt : Runtime} (v : jsval) (n : Z) : result bool :=
  match v with
  | JUndefined => Ok false
  | JNull => Ok (0 <? n)
  | JBool b => Ok ((if b then 1 else 0) <? n)
  | JNum m => Ok (m <? n)
  | JStr _ | JArr _ | JObj _ => coerce_lt v n
  end.

(** [v.length < n]. *)
Definition length_below {rt : Runtime} (v : jsval) (n : Z) : result bool :=
  match js_prop v "length" with
  | Ok len => js_lt len n
  | Throw e => Throw e
  end.

(** The mongoose model [User] and the connection helper, as the routes call
    them. A document is the object the routes read properties from. *)
Class UserModel : Type := {
  store : Type;
  (** [await dbConnect()]. *)
  dbConnect : store -> result unit;
  (** [await User.findOne(query)]: a document or [null]. *)
  User_findOne : jsobj -> store -> result (option jsobj);
  (** [user = new User(fields); await user.save()]: the document as saved,
      or the exception [save] throws. *)
  User_save : jsobj -> store -> result jsobj * store;
  (** [await user.comparePassword(candidate)]. *)
  User_comparePassword : jsobj -> jsval -> store -> result bool;
  (** [await User.findById(id).select(projection)]. *)
  User_findById_select : jsval -> string -> store -> result (option jsobj)
}.

(** The calls a route makes to its collaborators, in order. *)
Inductive event : Type :=
| DbConnect
| FindOne (query : jsobj)
| Save (fields : jsobj)
| ComparePassword (user : jsobj) (candidate : jsval)
| FindById (id : jsval) (projection : string)
| Sign (payload : jsobj).

(** The request of a route handler: the outcome of [await request.json()]
    and [request.headers.get('authorization')]. *)
Record http_request : Type := mkHttpRequest {
  request_json : result jsval;
  request_authorization : option string
}.

(** The user object of a response body: the same seven properties in the
    three routes. *)
Definition userData (user : jsobj) : jsobj :=
  [ ("id", js_get user "_id");
    ("name", js_get user "name");
    ("email", js_get user "email");
    ("role", js_get user "role");
    ("avatar", js_get user "avatar");
    ("isVerified", js_get user "isVerified");
    ("createdAt", js_get user "createdAt") ].

(** The payload the routes sign. *)
Definition token_claims (user : jsobj) : jsobj :=
  [ ("userId", js_get user "_id");
    ("email", js_get user "email");
    ("name", js_get user "name");
    ("role", js_get user "role") ].

(** What the signup route reads from an object body. *)
Definition signup_fields (o : jsobj) : jsobj :=
  [ ("name", js_get o "name");
    ("email", js_get o "email");
    ("password", js_get o "password") ].

(** [name && email && password] on an object body. *)
Definition all_present (o : jsobj) : bool :=
  truthy (js_get o "name") && truthy (js_get o "email")
  && truthy (js_get o "password").

(** The property names of the user object of a response. *)
Definition user_keys : list string :=
  ["id"; "name"; "email"; "role"; "avatar"; "isVerified"; "createdAt"].

(** A response whose body says [success: true]. *)
Definition succeeded (r : response) : Prop :=
  js_get (body r) "success" = JBool true.

(** The body has a user object, with the seven properties and no
    [password]. *)
Definition user_without_password (r : response) : Prop :=
  exists user, js_get (body r) "user" = JObj user
               /\ js_keys user = user_keys
               /\ js_has user "password" = false.

Section Routes.

Context {lib : Jsonwebtoken} {proc : Process} {rt : Runtime} {model : UserModel}.

Record route_state : Type := mkRoute {
  db : store;
  log : list event
}.

Definition emit (e : event) : M route_state unit :=
  fun s => (Ok tt, mkRoute (db s) (log s ++ [e])).

Definition call_dbConnect : M route_state unit :=
  emit DbConnect ;;; (fun s => (dbConnect (db s), s)).

Definition call_findOne (query : jsobj) : M route_state (option jsobj) :=
  emit (FindOne query) ;;; (fun s => (User_findOne query (db s), s)).

Definition call_save (fields : jsobj) : M route_state jsobj :=
  emit (Save fields) ;;;
  (fun s => let (r, db') := User_save fields (db s) in (r, mkRoute db' (log s))).

Definition call_comparePassword (user : jsobj) (candidate : jsval)
  : M route_state bool :=
  emit (ComparePassword user candidate) ;;;
  (fun s => (User_comparePassword user candidate (db s), s)).

Definition call_findById_select (id : jsval) (projection : string)
  : M route_state (option jsobj) :=
  emit (FindById id projection) ;;;
  (fun s => (User_findById_select id projection (db s), s)).

Definition call_generateToken (payload : jsobj) (now : Z) : M route_state string :=
  emit (Sign payload) ;;; lift (generateToken payload now).

(** *** api/auth/signup *)

(** The [catch] of signup. [Object.values(error.errors)] throws on an
    error that has no [errors], and nothing catches that: the promise of
    the route rejects. *)
Definition signup_catch (error : exn) : M route_state response :=
  if String.eqb (exn_name error) "ValidationError" then
    match exn_errors error with
    | None => throw (TypeError "Cannot convert undefined or null to object")
    | Some errors =>
        let messages := map snd errors in
        ret (failure 400 (join ", " messages))
    end
  else ret (failure 500 "Internal server error").

Definition signup_try (request : http_request) (now : Z) : M route_state response :=
  call_dbConnect ;;;
  json <- lift (request_json request) ;;
  name <- lift (js_prop json "name") ;;
  email <- lift (js_prop json "email") ;;
  password <- lift (js_prop json "password") ;;
  if negb (truthy name) || negb (truthy email) || negb (truthy password) then
    ret (failure 400 "Please provide all required fields")
  else
    short <- lift (length_below password 6) ;;
    if (short : bool) then
      ret (failure 400 "Password must be at least 6 characters long")
    else
      existingUser <- call_findOne [("email", email)] ;;
      match existingUser with
      | Some _ => ret (failure 409 "User already exists with this email")
      | None =>
          user <- call_save [("name", name); ("email", email); ("password", password)] ;;
          token <- call_generateToken (token_claims user) now ;;
          ret (mkResponse 201
                 [ ("success", JBool true);
                   ("message", JStr "User created successfully");
                   ("user", JObj (userData user));
                   ("token", JStr token) ])
      end.

Definition signup_POST (request : http_request) (now : Z) : M route_state response :=
  try_catch (signup_try request now) signup_catch.

(** *** api/auth/login *)

Definition login_try (request : http_request) (now : Z) : M route_state response :=
  call_dbConnect ;;;
  json <- lift (request_json request) ;;
  email <- lift (js_prop json "email") ;;
  password <- lift (js_prop json "password") ;;
  if negb (truthy email) || negb (truthy password) then
    ret (failure 400 "Please provide email and password")
  else
    found <- call_findOne [("email", email)] ;;
    match found with
    | None => ret (failure 401 "Invalid email or password")
    | Some user =>
        isPasswordValid <- call_comparePassword user password ;;
        if negb isPasswordValid then
          ret (failure 401 "Invalid email or password")
        else
          token <- call_generateToken (token_claims user) now ;;
          ret (mkResponse 200
                 [ ("success", JBool true);
                   ("message", JStr "Login successful");
                   ("user", JObj (userData user));
                   ("token", JStr token) ])
    end.

Definition login_POST (request : http_request) (now : Z) : M route_state response :=
  try_catch (login_try request now)
            (fun _ => ret (failure 500 "Internal server error")).

(** *** api/auth/me *)

Definition me_catch (error : exn) : M route_state response :=
  if String.eqb (exn_message error) "Invalid token" then
    ret (failure 401 "Invalid token")
  else ret (failure 500 "Internal server error").

Definition me_try (request : http_request) (now : Z) : M route_state response :=
  call_dbConnect ;;;
  let authHeader := request_authorization request in
  match extractTokenFromHeader authHeader with
  | None => ret (failure 401 "Access denied. No token provided.")
  | Some token =>
      if negb (truthy (JStr token)) then
        ret (failure 401 "Access denied. No token provided.")
      else
        decoded <- lift (verifyToken token now) ;;
        found <- call_findById_select (payload_get decoded "userId") "-password" ;;
        match found with
        | None => ret (failure 404 "User not found")
        | Some user =>
            ret (mkResponse 200
                   [ ("success", JBool true);
                     ("user", JObj (userData user)) ])
        end
  end.

Definition me_GET (request : http_request) (now : Z) : M route_state response :=
  try_catch (me_try request now) me_catch.

End Routes.

(** ** Password hasher *)

(** Modelled from the spec: the Password Hasher that stands behind
    [user.comparePassword] and the save hook of the [User] model
    (models/User.js), which is not among the sources. The spec asks for a
    salted one-way transform whose output embeds its salt, and for a
    verification that recomputes and compares, answers [false] on a
    mismatch and fails only on a hash that does not have the format. The
    one-way function and the format are left to an interface. *)
Class Hashing : Type := {
  (** salt, plaintext: digest *)
  kdf : string -> string -> string;
  (** salt, digest: the stored text *)
  render_hash : string -> string -> string;
  parse_hash : string -> option (string * string)
}.

Definition HashingError (message : string) : exn := mkExn "HashingError" message None.

Module PasswordHasher.

(** Modelled from the spec: [hash(plaintext)], with the salt drawn from an
    entropy source that may be unavailable. *)
Definition hash {H : Hashing} (entropy : option string) (plaintext : string)
  : result string :=
  match entropy with
  | None => Throw (HashingError "entropy source unavailable")
  | Some salt => Ok (render_hash salt (kdf salt plaintext))
  end.

(** Modelled from the spec: [verify(plaintext, hash)]. *)
Definition verify {H : Hashing} (plaintext stored : string) : result bool :=
  match parse_hash stored with
  | None => Throw (HashingError "invalid hash")
  | Some (salt, digest) => Ok (String.eqb (kdf salt plaintext) digest)
  end.

End PasswordHasher.

(** ** A concrete instance of the collaborators

    Small stand-ins for the packages and for the [User] model, on which the
    definitions above can be run. *)
Module Sample.

(** [s] cut at the first occurrence of [c]. *)
Fixpoint cut (c : ascii) (s : string) : option (string * string) :=
  match s with
  | EmptyString => None
  | String a rest =>
      if Ascii.eqb a c then Some (EmptyString, rest)
      else match cut c rest with
           | Some (before, after) => Some (String a before, after)
           | None => None
           end
  end.

Definition dec (z : Z) : string := NilZero.string_of_int (Z.to_int z).

Definition undec (s : string) : option Z :=
  option_map Z.of_int (NilZero.int_of_string s).

(** A value as text: a tag and, for strings and numbers, the content. *)
Definition value_text (v : jsval) : string :=
  match v with
  | JStr s => "s" ++ s
  | JNum n => "n" ++ dec n
  | JBool true => "t"
  | JBool false => "f"
  | JNull => "0"
  | JUndefined | JArr _ | JObj _ => "u"
  end.

Definition text_value (s : string) : option jsval :=
  match s with
  | String "s" rest => Some (JStr rest)
  | String "n" rest => option_map JNum (undec rest)
  | "t" => Some (JBool true)
  | "f" => Some (JBool false)
  | "0" => Some JNull
  | "u" => Some JUndefined
  | _ => None
  end.

Fixpoint claims_text (o : jsobj) : string :=
  match o with
  | [] => ""
  | (k, v) :: rest => k ++ "=" ++ value_text v ++ ";" ++ claims_text rest
  end.

Fixpoint text_claims (fuel : nat) (s : string) : option jsobj :=
  match fuel with
  | O => None
  | S fuel' =>
      if String.eqb s "" then Some []
      else match cut ";" s with
           | None => None
           | Some (kv, rest) =>
               match cut "=" kv with
               | None => None
               | Some (k, v) =>
                   match text_value v, text_claims fuel' rest with
                   | Some v', Some o => Some ((k, v') :: o)
                   | _, _ => None
                   end
               end
           end
  end.

Definition payload_text (p : jwt_payload) : string := claims_text p.

Definition text_payload (s : string) : option jwt_payload :=
  text_claims (S (String.length s)) s.

Definition sample_ms (s : string) : option Z :=
  if String.eqb s "7d" then Some 604800000
  else if String.eqb s "1h" then Some 3600000
  else if String.eqb s "1500ms" then Some 1500
  else None.

Definition sample_encode (j : jws) : string :=
  payload_text (jws_payload j) ++ "~" ++ jws_signature j.

Definition sample_decode (s : string) : option jws :=
  match cut "~" s with
  | None => None
  | Some (p, signature) =>
      option_map (fun p' => mkJws p' signature) (text_payload p)
  end.

(** A stand-in for [jsonwebtoken]: the token is the payload text, a tilde
    and the signature; the signature is the payload text keyed by the
    secret. *)
Definition jwt : Jsonwebtoken := {|
  ms := sample_ms;
  hmac := fun secret p => payload_text p ++ "/" ++ secret;
  jws_encode := sample_encode;
  jws_decode := sample_decode
|}.

(** The zero byte, and a key without the zero bytes it ends in. *)
Definition zero_byte : string := String Ascii.zero EmptyString.

Fixpoint unpadded (key : string) : string :=
  match key with
  | EmptyString => EmptyString
  | String c rest =>
      match unpadded rest with
      | EmptyString => if Ascii.eqb c Ascii.zero then EmptyString
                       else String c EmptyString
      | rest' => String c rest'
      end
  end.

(** The same stand-in with the key handling of HMAC, which fills a key
    shorter than its block with zero bytes: a key and the same key followed
    by zero bytes sign alike. *)
Definition padding_jwt : Jsonwebtoken := {|
  ms := sample_ms;
  hmac := fun secret p => payload_text p ++ "/" ++ unpadded secret;
  jws_encode := sample_encode;
  jws_decode := sample_decode
|}.

(** A process started without configuration, and one with both variables. *)
Definition unset : Process := {| env := fun _ => None |}.

Definition configured : Process := {|
  env := fun name =>
    if String.eqb name "JWT_SECRET" then Some "s3cret"
    else if String.eqb name "JWT_EXPIRES_IN" then Some "1h"
    else None
|}.

(** A process whose tokens live a second and a half. *)
Definition short_lived : Process := {|
  env := fun name =>
    if String.eqb name "JWT_EXPIRES_IN" then Some "1500ms" else None
|}.

(** A stand-in for the conversions of the runtime: a text of decimal
    digits is compared as the number it spells and the empty text as 0; the
    rest converts to NaN, which is less than nothing. *)
Definition runtime : Runtime := {|
  coerce_lt := fun v n =>
    match v with
    | JStr s => if String.eqb s "" then Ok (0 <? n)
                else match undec s with
                     | Some z => Ok (z <? n)
                     | None => Ok false
                     end
    | _ => Ok false
    end
|}.

(** A stand-in for the hashing package: the digest is the salted text. *)
Definition hashing : Hashing := {|
  kdf := fun salt plaintext => salt ++ "/" ++ plaintext;
  render_hash := fun salt digest => salt ++ "$" ++ digest;
  parse_hash := cut "$"
|}.

Definition ValidationError (errors : list (string * string)) : exn :=
  mkExn "ValidationError" "User validation failed" (Some errors).

Definition same_text (a b : jsval) : bool :=
  match a, b with
  | JStr x, JStr y => String.eqb x y
  | _, _ => false
  end.

Definition without (k : string) (o : jsobj) : jsobj :=
  filter (fun kv => negb (String.eqb (fst kv) k)) o.

(** Modelled from the spec: the [User] model of models/User.js, which is
    not among the sources, over a collection kept in memory. A record holds
    an identifier, name, email, password hash, role (default user), avatar,
    verification flag and creation time; the password is hashed on save and
    the fields are validated by the store. *)
Definition users : UserModel := {|
  store := list jsobj;
  dbConnect := fun _ => Ok tt;
  User_findOne := fun query docs =>
    Ok (find (fun d => same_text (js_get query "email") (js_get d "email")) docs);
  User_save := fun fields docs =>
    match js_get fields "name", js_get fields "email", js_get fields "password" with
    | JStr name, JStr email, JStr password =>
        if (utf16_length password <? 6)%nat then
          (Throw (ValidationError
                    [("password", "Password must be at least 6 characters")]), docs)
        else
          match @PasswordHasher.hash hashing
                  (Some ("salt" ++ dec (Z.of_nat (List.length docs)))) password with
          | Throw e => (Throw e, docs)
          | Ok h =>
              let doc :=
                [ ("_id", JStr ("u" ++ dec (Z.of_nat (List.length docs))));
                  ("name", JStr name);
                  ("email", JStr email);
                  ("password", JStr h);
                  ("role", JStr "user");
                  ("avatar", JNull);
                  ("isVerified", JBool false);
                  ("createdAt", JNum 0) ] in
              (Ok doc, (docs ++ [doc])%list)
          end
    | _, _, _ =>
        (Throw (ValidationError
                  [("name", "Please provide a name");
                   ("email", "Please provide an email")]), docs)
    end;
  User_comparePassword := fun user candidate _ =>
    match js_get user "password", candidate with
    | JStr h, JStr c => @PasswordHasher.verify hashing c h
    | _, _ => Ok false
    end;
  User_findById_select := fun id projection docs =>
    let found := find (fun d => same_text id (js_get d "_id")) docs in
    Ok (if String.eqb projection "-password"
        then option_map (without "password") found
        else found)
|}.

(** A model whose connection is down. *)
Definition offline : UserModel := {|
  store := unit;
  dbConnect := fun _ => Throw (Error "connect ECONNREFUSED");
  User_findOne := fun _ _ => Ok None;
  User_save := fun _ s => (Throw (Error "not connected"), s);
  User_comparePassword := fun _ _ _ => Ok false;
  User_findById_select := fun _ _ _ => Ok None
|}.


(** A user as the collection stores it after the signup of Ann, and what
    the routes are sent. *)
Definition ann_body : jsval :=
  JObj [("name", JStr "Ann"); ("email", JStr "ann@x.com");
        ("password", JStr "secret1")].

Definition registered : list jsobj :=
  snd (@User_save users
         [("name", JStr "Ann"); ("email", JStr "ann@x.com");
          ("password", JStr "secret1")] []).

Definition ann_claims : jsobj :=
  [("userId", JStr "u0"); ("email", JStr "ann@x.com");
   ("name", JStr "Ann"); ("role", JStr "user")].

(** The token issued for Ann, without configuration, at 1000.5 seconds. *)
Definition ann_token : string :=
  Eval vm_compute in
  match @generateToken jwt unset ann_claims 1000500 with
  | Ok token => token
  | Throw _ => ""
  end.



(** What Ann's token decodes to. *)
Definition ann_decoded : jwt_payload := stamped ann_claims 1000 605800.

(** Tokens the service never issues, signed with the default secret: one
    that is not valid before the year 2286, one whose expiry is a text. *)
Definition early_token : string :=
  Eval vm_compute in
  let p := [("userId", JStr "u0"); ("nbf", JNum 9999999999);
            ("exp", JNum 99999999999)] in
  @jws_encode jwt (mkJws p (@hmac jwt "your-super-secret-jwt-key" p)).

Definition odd_token : string :=
  Eval vm_compute in
  let p := [("userId", JStr "u0"); ("exp", JStr "tomorrow")] in
  @jws_encode jwt (mkJws p (@hmac jwt "your-super-secret-jwt-key" p)).

(** Ann's claims signed with the default secret followed by a zero byte,
    under the stand-in that handles keys as HMAC does. *)
Definition padded_secret : string := "your-super-secret-jwt-key" ++ zero_byte.

Definition padded_token : string :=
  let p := stamped ann_claims 1000 605800 in
  @jws_encode padding_jwt (mkJws p (@hmac padding_jwt padded_secret p)).


(** A handler that answers 200, and requests to try the gate and the
    routes on. *)
Definition ok_handler (req : request) : completion :=
  Returned (mkResponse 200 [("success", JBool true)]).

Definition bearer (token : string) : request :=
  mkRequest (Some ("Bearer " ++ token)) None.

Definition basic_request : request := mkRequest (Some "Basic xyz") None.

Definition post (json : jsval) : http_request := mkHttpRequest (Ok json) None.

Definition login_body (email password : string) : jsval :=
  JObj [("email", JStr email); ("password", JStr password)].

Definition me_request (token : string) : http_request :=
  mkHttpRequest (Throw (Error "no body")) (Some ("Bearer " ++ token)).

Definition sample_state (docs : list jsobj) : @route_state users :=
  @mkRoute users docs [].

(** The status a route answered with. *)
Definition status_of {S : Type} (run : result response * S) : option Z :=
  match fst run with
  | Ok r => Some (status r)
  | Throw _ => None
  end.

(** A process whose expiry is not a time span, a handler that throws, and
    a signup with a number for a password. *)
Definition misconfigured : Process := {|
  env := fun name =>
    if String.eqb name "JWT_EXPIRES_IN" then Some "soon" else None
|}.

Definition throwing_handler (req : request) : completion :=
  Thrown (Error "handler failed").

Definition numeric_body : jsobj :=
  [("name", JStr "Bob"); ("email", JStr "bob@x.com"); ("password", JNum 12345)].

End Sample.

(** ** Reading the trace of a route *)

(** The fields of the users a run asked the store to save, and the
    payloads it had signed. *)
Fixpoint saves (trace : list event) : list jsobj :=
  match trace with
  | [] => []
  | Save fields :: rest => fields :: saves rest
  | _ :: rest => saves rest
  end.

Fixpoint signs (trace : list event) : list jsobj :=
  match trace with
  | [] => []
  | Sign payload :: rest => payload :: signs rest
  | _ :: rest => signs rest
  end.

(** A response is either the success of the route, with status [good], or
    a plain failure with one of the statuses [bad]. *)
Definition answers_with (good : Z) (bad : list Z) (r : response) : Prop :=
  (status r = good /\ succeeded r)
  \/ (In (status r) bad /\ exists message, r = failure (status r) message).

(** ** components/auth/AuthModal.js and components/Navbar.js *)

Inductive auth_form : Type := LoginForm | SignupForm.

(** What the modal shows: its heading and the form below it. *)
Record modal_view : Type := mkView {
  heading : string;
  form : auth_form
}.

(** [mode === 'login' ? 'signup' : 'login']. *)
Definition handleSwitchMode (mode : string) : string :=
  if String.eqb mode "login" then "signup" else "login".

(** The render of [AuthModal]: nothing when it is closed. *)
Definition AuthModal (isOpen : bool) (mode : string) : option modal_view :=
  if negb isOpen then None
  else Some (mkView (if String.eqb mode "login" then "Sign In" else "Create Account")
                    (if String.eqb mode "login" then LoginForm else SignupForm)).

(** The state of the navigation bar ([authModalOpen], [authMode]) and of
    the modal it always mounts ([mode]). *)
Record ui_state : Type := mkUi {
  authModalOpen : bool;
  authMode : string;
  modal_mode : string
}.

(** [useState(false)], [useState('login')] and, in the modal,
    [useState(initialMode)]. *)
Definition ui_initial : ui_state := mkUi false "login" "login".

Inductive ui_event : Type :=
| ClickLogin
| ClickSignup
| SwitchMode
| CloseModal.

(** [setAuthMode(m); setAuthModalOpen(true)], followed by the effect of
    the modal, [setMode(initialMode)], which runs only when [initialMode]
    is not what it was at the previous render. *)
Definition open_modal (m : string) (s : ui_state) : ui_state :=
  mkUi true m (if String.eqb (authMode s) m then modal_mode s else m).

Definition ui_step (s : ui_state) (e : ui_event) : ui_state :=
  match e with
  | ClickLogin => open_modal "login" s
  | ClickSignup => open_modal "signup" s
  | SwitchMode => mkUi (authModalOpen s) (authMode s) (handleSwitchMode (modal_mode s))
  | CloseModal => mkUi false (authMode s) (modal_mode s)
  end.

Definition ui_run (events : list ui_event) : ui_state :=
  fold_left ui_step events ui_initial.

Definition ui_view (s : ui_state) : option modal_view :=
  AuthModal (authModalOpen s) (modal_mode s).

(** The two modes the modal knows. *)
Definition known_mode (m : string) : Prop := m = "login" \/ m = "signup".

(** * Properties *)

(** ** Strings *)

Lemma append_inv_head (a x y : string) : a ++ x = a ++ y -> x = y.
Proof.
  induction a as [|c a IH]; simpl; intros H.
  - exact H.
  - injection H as H. auto.
Qed.

Lemma prefix_append (p s : string) :
  String.prefix p s = true <-> exists t, s = p ++ t.
Proof.
  revert s. induction p as [|c p IH]; intros s.
  - split; [intros _; exists s; reflexivity | destruct s; reflexivity].
  - destruct s as [|d s]; simpl.
    + split; [discriminate | intros [t H]; discriminate].
    + destruct (Ascii.ascii_dec c d) as [Heq|Hne].
      * subst d. rewrite IH. split; intros [t H]; exists t.
        -- now rewrite H.
        -- now injection H.
      * split; [discriminate | intros [t H]; injection H as H1 H2; congruence].
Qed.

Lemma startsWith_Bearer (h : string) :
  startsWith h "Bearer " = true <-> exists t, h = "Bearer " ++ t.
Proof. apply prefix_append. Qed.

Lemma truthy_JStr (s : string) : truthy (JStr s) = true <-> s <> "".
Proof.
  simpl. destruct (String.eqb_spec s ""); simpl; split; congruence.
Qed.

(** ** Objects *)

Lemma js_get_set_same (o : jsobj) (k : string) (v : jsval) :
  js_get (js_set o k v) k = v.
Proof.
  induction o as [|[k' v'] o IH]; cbn.
  - now rewrite String.eqb_refl.
  - destruct (String.eqb k' k) eqn:Hk; cbn.
    + now rewrite String.eqb_refl.
    + now rewrite Hk.
Qed.

Lemma js_get_set_other (o : jsobj) (k k' : string) (v : jsval) :
  k <> k' -> js_get (js_set o k v) k' = js_get o k'.
Proof.
  intros Hne. induction o as [|[k0 v0] o IH]; cbn.
  - apply String.eqb_neq in Hne. now rewrite Hne.
  - destruct (String.eqb_spec k0 k) as [->|Hk]; cbn.
    + apply String.eqb_neq in Hne. now rewrite Hne.
    + destruct (String.eqb k0 k'); [reflexivity | exact IH].
Qed.

Lemma stamped_exp (payload : jsobj) (iat exp : Z) :
  js_get (stamped payload iat exp) "exp" = JNum exp.
Proof. apply js_get_set_same. Qed.


Lemma stamped_other (payload : jsobj) (iat exp : Z) (k : string) :
  k <> "iat" -> k <> "exp" ->
  js_get (stamped payload iat exp) k = js_get payload k.
Proof.
  intros Hi He. unfold stamped.
  rewrite !js_get_set_other by congruence. reflexivity.
Qed.

(** ** Token service *)

(** Comparisons of the code, read as inequalities. *)
Ltac zbool :=
  repeat match goal with
         | H : (_ <=? _) = true |- _ => apply Z.leb_le in H
         | H : (_ <=? _) = false |- _ => apply Z.leb_gt in H
         | H : (_ <? _) = true |- _ => apply Z.ltb_lt in H
         | H : (_ <? _) = false |- _ => apply Z.ltb_ge in H
         end.

Section TokenService.

Context {lib : Jsonwebtoken} {proc : Process}.

Lemma verifyToken_throws (token : string) (now : Z) (e : exn) :
  verifyToken token now = Throw e -> e = Error "Invalid token".
Proof.
  unfold verifyToken. destruct (jwt_verify token JWT_SECRET now); congruence.
Qed.

(** The two tests on the payload pass exactly when [nbf] and [exp] are
    numbers or absent, [nbf] is not ahead of the clock and [exp] is. *)
Lemma check_claims_Ok_iff (payload : jsobj) (clock : Z) :
  (exists d, check_claims payload clock = Ok d) <->
  not_a_number (js_get payload "nbf") = false
  /\ not_a_number (js_get payload "exp") = false
  /\ (forall n, js_get payload "nbf" = JNum n -> n <= clock)
  /\ (forall e, js_get payload "exp" = JNum e -> clock < e).
Proof.
  unfold check_claims, check_exp.
  destruct (js_get payload "nbf") as [| |b|n|t|l|o];
    destruct (js_get payload "exp") as [| |b'|e|t'|l'|o'];
    cbn [not_a_number];
    repeat match goal with
           | |- context [if ?c then _ else _] => destruct c eqn:?
           end;
    zbool;
    (split;
     [ intros [d Hd]; try discriminate;
       repeat split; intros x Hx; try discriminate;
       injection Hx as <-; lia
     | intros (H1 & H2 & H3 & H4); try discriminate; eauto;
       exfalso;
       try (specialize (H3 _ eq_refl)); try (specialize (H4 _ eq_refl));
       lia ]).
Qed.

Lemma check_claims_returns (payload d : jsobj) (clock : Z) :
  check_claims payload clock = Ok d -> d = payload.
Proof.
  unfold check_claims, check_exp.
  destruct (js_get payload "nbf"); try discriminate;
    try destruct (clock <? _); try discriminate;
    destruct (js_get payload "exp"); try discriminate;
    try destruct (_ <=? clock); try discriminate; congruence.
Qed.

(** [jwt.verify] succeeds exactly on a well-formed token whose signature
    matches and whose payload passes the two tests. *)
Lemma jwt_verify_Ok_iff (token secret : string) (now : Z) :
  (exists d, jwt_verify token secret now = Ok d) <->
  malformed token = false /\ signature_matches secret token = true /\
  invalid_claims token = false /\ not_yet_valid token now = false /\
  expired token now = false.
Proof.
  unfold jwt_verify, malformed, signature_matches, invalid_claims,
    not_yet_valid, expired.
  destruct (jws_decode token) as [j|];
    [|split; [intros [d H]; discriminate | intros (H & _); discriminate]].
  destruct (String.eqb (hmac secret (jws_payload j)) (jws_signature j));
    [|split; [intros [d H]; discriminate | intros (_ & H & _); discriminate]].
  rewrite check_claims_Ok_iff. split.
  - intros (Hn & He & Hnbf & Hexp). rewrite Hn, He.
    repeat split.
    + destruct (js_get (jws_payload j) "nbf") as [| |b|n|t|l|o] eqn:E;
        try reflexivity.
      apply Z.ltb_ge. now apply Hnbf.
    + destruct (js_get (jws_payload j) "exp") as [| |b|e|t|l|o] eqn:E;
        try reflexivity.
      apply Z.leb_gt. now apply Hexp.
  - intros (_ & _ & Hinv & Hnbf & Hexp).
    apply orb_false_iff in Hinv as [Hn He]. repeat split; try assumption.
    + intros n E. rewrite E in Hnbf. now apply Z.ltb_ge.
    + intros e E. rewrite E in Hexp. now apply Z.leb_gt.
Qed.

Lemma verifyToken_fails_iff (token : string) (now : Z) :
  verifyToken token now = Throw (Error "Invalid token") <->
  malformed token = true \/ signature_matches JWT_SECRET token = false \/
  invalid_claims token = true \/ not_yet_valid token now = true \/
  expired token now = true.
Proof.
  pose proof (jwt_verify_Ok_iff token JWT_SECRET now) as Hok.
  unfold verifyToken.
  destruct (jwt_verify token JWT_SECRET now) as [d|e] eqn:Hv.
  - split; [discriminate|].
    destruct Hok as [Hok _].
    destruct Hok as (Hm & Hs & Hi & Hn & He); [eauto|].
    rewrite Hm, Hs, Hi, Hn, He. intros [H|[H|[H|[H|H]]]]; discriminate.
  - split; [intros _ | reflexivity].
    destruct (malformed token) eqn:Hm; [now left|].
    destruct (signature_matches JWT_SECRET token) eqn:Hs; [|now right; left].
    destruct (invalid_claims token) eqn:Hi; [now right; right; left|].
    destruct (not_yet_valid token now) eqn:Hn; [now right; right; right; left|].
    destruct (expired token now) eqn:He; [now right; right; right; right|].
    destruct Hok as [_ Hok]. destruct Hok as [d Hd]; [auto | discriminate].
Qed.

(** The clock divides by whole seconds. *)
Lemma clock_before (now bound : Z) :
  now < 1000 * bound <-> clockTimestamp now < bound.
Proof.
  unfold clockTimestamp. split; intros H.
  - apply Z.div_lt_upper_bound; lia.
  - pose proof (Z.mul_div_le now 1000 ltac:(lia)).
    pose proof (Z.mod_pos_bound now 1000 ltac:(lia)).
    pose proof (Z.div_mod now 1000 ltac:(lia)). lia.
Qed.

Lemma expiry_of_span (timestamp span : Z) :
  (1000 * timestamp + span) / 1000 = timestamp + span / 1000.
Proof.
  rewrite Z.add_comm, Z.mul_comm, Z.div_add by lia. lia.
Qed.

(** What [jwt.sign] returns when it returns. *)
Lemma jwt_sign_Ok (payload : jsobj) (secret expiresIn token : string) (now : Z) :
  jwt_sign payload secret expiresIn now = Ok token ->
  js_has payload "exp" = false
  /\ claim_is_number payload "iat" = true
  /\ claim_is_number payload "nbf" = true
  /\ exists span, ms expiresIn = Some span
                  /\ token = jws_encode (jws_sign payload secret span now).
Proof.
  unfold jwt_sign.
  destruct (claim_is_number payload "iat"); [|discriminate].
  destruct (claim_is_number payload "exp"); [|discriminate].
  destruct (claim_is_number payload "nbf"); [|discriminate]. cbn.
  destruct (js_has payload "exp"); [discriminate|].
  destruct (ms expiresIn) as [span|]; [|discriminate].
  intros H. injection H as <-. eauto 6.
Qed.

End TokenService.

Section TokenLifetime.

Context {lib : Jsonwebtoken} {proc : Process}.

(** A registered claim [jwt.sign] accepted is absent or a number. *)
Lemma js_get_absent (o : jsobj) (k : string) :
  js_has o k = false -> js_get o k = JUndefined.
Proof.
  unfold js_has, js_keys. induction o as [|[k' v] rest IH]; cbn; [reflexivity|].
  rewrite (String.eqb_sym k k').
  destruct (String.eqb k' k); [discriminate | exact IH].
Qed.

Lemma claim_is_number_cases (payload : jsobj) (k : string) :
  claim_is_number payload k = true ->
  js_get payload k = JUndefined \/ exists n, js_get payload k = JNum n.
Proof.
  unfold claim_is_number. intros H. apply orb_prop in H as [H|H].
  - left. apply js_get_absent. now apply negb_true_iff.
  - right. destruct (js_get payload k); try discriminate. eauto.
Qed.

Lemma clock_from (now bound : Z) :
  1000 * bound <= now <-> bound <= clockTimestamp now.
Proof. pose proof (clock_before now bound). lia. Qed.

(** The token [jwt.sign] returned, parsed back to what was serialised,
    under any key: the signature the key gives the stamped payload is
    compared with the one the signing secret gave it, then the not-before
    time of the payload, if it has one, and the stamped expiry are tested
    against the clock. *)
Lemma verify_issued (payload : jsobj) (secret key expiresIn token : string)
  (span issuedAt now : Z) :
  jwt_sign payload secret expiresIn issuedAt = Ok token ->
  ms expiresIn = Some span ->
  jws_decode token = Some (jws_sign payload secret span issuedAt) ->
  let t0 := issue_time payload issuedAt in
  let expiry := t0 + span / 1000 in
  let decoded := stamped payload t0 expiry in
  (js_get payload "nbf" = JUndefined
   \/ exists n, js_get payload "nbf" = JNum n)
  /\ ((exists d, jwt_verify token key now = Ok d) <->
      hmac key decoded = hmac secret decoded
      /\ now < 1000 * expiry
      /\ (forall n, js_get payload "nbf" = JNum n -> 1000 * n <= now))
  /\ (forall d, jwt_verify token key now = Ok d -> d = decoded).
Proof.
  intros Hsign Hspan Hparse t0 expiry decoded.
  destruct (jwt_sign_Ok _ _ _ _ _ Hsign) as (_ & _ & Hnum & _).
  apply claim_is_number_cases in Hnum.
  split; [exact Hnum|].
  assert (Hj : jws_sign payload secret span issuedAt
               = mkJws decoded (hmac secret decoded)).
  { unfold jws_sign. cbn zeta. fold t0. rewrite expiry_of_span. reflexivity. }
  rewrite Hj in Hparse.
  assert (Hnbf : js_get decoded "nbf" = js_get payload "nbf")
    by (apply stamped_other; cbn; intuition discriminate).
  assert (Hexp : js_get decoded "exp" = JNum expiry) by apply stamped_exp.
  unfold jwt_verify. rewrite Hparse. cbn [jws_payload jws_signature].
  unfold check_claims, check_exp. rewrite Hnbf, Hexp.
  rewrite clock_before.
  destruct (String.eqb_spec (hmac key decoded) (hmac secret decoded))
    as [Hsame|Hdiff].
  - destruct Hnum as [Hu|[n Hn]].
    + rewrite Hu.
      destruct (Z.leb_spec expiry (clockTimestamp now)); split.
      * split; [intros [d Hd]; discriminate | intros (_ & Hlt & _); lia].
      * intros d Hd; congruence.
      * split; [|eauto]. intros _.
        repeat split; try assumption. intros n' Hn'. discriminate.
      * intros d Hd; congruence.
    + rewrite Hn.
      destruct (Z.ltb_spec (clockTimestamp now) n);
        [|destruct (Z.leb_spec expiry (clockTimestamp now))]; split.
      * split; [intros [d Hd]; discriminate|].
        intros (_ & _ & Hfrom). specialize (Hfrom n eq_refl).
        apply clock_from in Hfrom. lia.
      * intros d Hd; congruence.
      * split; [intros [d Hd]; discriminate | intros (_ & Hlt & _); lia].
      * intros d Hd; congruence.
      * split; [|eauto]. intros _. repeat split; try assumption.
        intros n' Hn'. injection Hn' as <-. now apply clock_from.
      * intros d Hd; congruence.
  - split; [|intros d Hd; discriminate].
    split; [intros [d Hd]; discriminate | intros (Hsame & _); contradiction].
Qed.

(** The same for [verifyToken], which verifies under the secret of the
    process and hides the reason of a refusal. *)
Lemma verifyToken_issued (payload : jsobj) (secret expiresIn token : string)
  (span issuedAt now : Z) :
  jwt_sign payload secret expiresIn issuedAt = Ok token ->
  ms expiresIn = Some span ->
  jws_decode token = Some (jws_sign payload secret span issuedAt) ->
  let t0 := issue_time payload issuedAt in
  let expiry := t0 + span / 1000 in
  let decoded := stamped payload t0 expiry in
  (hmac JWT_SECRET decoded = hmac secret decoded
   /\ now < 1000 * expiry
   /\ (forall n, js_get payload "nbf" = JNum n -> 1000 * n <= now) ->
   verifyToken token now = Ok decoded)
  /\ (~ (hmac JWT_SECRET decoded = hmac secret decoded
         /\ now < 1000 * expiry
         /\ (forall n, js_get payload "nbf" = JNum n -> 1000 * n <= now)) ->
      verifyToken token now = Throw (Error "Invalid token")).
Proof.
  intros Hsign Hspan Hparse t0 expiry decoded.
  destruct (verify_issued payload secret JWT_SECRET expiresIn token span
              issuedAt now Hsign Hspan Hparse) as (_ & Hiff & Hd).
  fold t0 expiry decoded in Hiff, Hd. unfold verifyToken.
  destruct (jwt_verify token JWT_SECRET now) as [d|e].
  - rewrite (Hd d eq_refl). split; [reflexivity|].
    intros Hno. exfalso. apply Hno, Hiff. eauto.
  - split; [|reflexivity].
    intros Hyes. apply Hiff in Hyes as [d Hd']. discriminate.
Qed.

Lemma env_or_unset (name fallback : string) :
  env name = None -> env_or name fallback = fallback.
Proof. unfold env_or. now intros ->. Qed.

(** C3 (amended). [verifyToken] fails, always with the one error
    Invalid token, exactly when the token is malformed, its signature is
    not the one the process-wide secret gives its payload, its not-before
    time or its expiry is not a number, its not-before time is still ahead
    of the clock, or the clock in whole seconds has reached its expiry
    (clock >= exp, the expiry second included). A token signed with
    another secret fails when that secret signs its payload differently;
    when the two secrets sign the payload alike, the signature test passes
    it. *)
Theorem verifyToken_refuses_exactly (token : string) (now : Z) :
  (verifyToken token now = Throw (Error "Invalid token") <->
     malformed token = true \/ signature_matches JWT_SECRET token = false \/
     invalid_claims token = true \/ not_yet_valid token now = true \/
     expired token now = true)
  /\ (forall e, verifyToken token now = Throw e -> e = Error "Invalid token")
  /\ (forall secret j,
        jws_decode token = Some j ->
        jws_signature j = hmac secret (jws_payload j) ->
        hmac secret (jws_payload j) <> hmac JWT_SECRET (jws_payload j) ->
        verifyToken token now = Throw (Error "Invalid token"))
  /\ (forall secret j,
        jws_decode token = Some j ->
        jws_signature j = hmac secret (jws_payload j) ->
        hmac secret (jws_payload j) = hmac JWT_SECRET (jws_payload j) ->
        signature_matches JWT_SECRET token = true
        /\ verifyToken token now
           = match check_claims (jws_payload j) (clockTimestamp now) with
             | Ok decoded => Ok decoded
             | Throw _ => Throw (Error "Invalid token")
             end).
Proof.
  split; [apply verifyToken_fails_iff|].
  split; [intros e; apply verifyToken_throws|]. split.
  - intros secret j Hj Hsig Hdiff.
    apply verifyToken_fails_iff. right; left.
    unfold signature_matches. rewrite Hj, Hsig.
    apply String.eqb_neq. congruence.
  - intros secret j Hj Hsig Hsame.
    unfold signature_matches, verifyToken, jwt_verify. rewrite Hj, Hsig, Hsame.
    rewrite String.eqb_refl. split; reflexivity.
Qed.


(** C10. With JWT_SECRET unset the module still loads: the secret is the
    literal your-super-secret-jwt-key (and the expiry 7d when
    JWT_EXPIRES_IN is unset too), [generateToken] signs with it,
    [verifyToken] checks against it, and every token the process issues
    verifies under that literal until it expires. *)
Theorem unset_secret_falls_back (payload : jsobj) (issuedAt : Z)
  (Hunset : env "JWT_SECRET" = None) :
  JWT_SECRET = "your-super-secret-jwt-key"
  /\ (env "JWT_EXPIRES_IN" = None -> JWT_EXPIRES_IN = "7d")
  /\ generateToken payload issuedAt
     = jwt_sign payload "your-super-secret-jwt-key" JWT_EXPIRES_IN issuedAt
  /\ (forall token now,
        verifyToken token now
        = match jwt_verify token "your-super-secret-jwt-key" now with
          | Ok decoded => Ok decoded
          | Throw _ => Throw (Error "Invalid token")
          end)
  /\ (forall token span,
        ms JWT_EXPIRES_IN = Some span ->
        generateToken payload issuedAt = Ok token ->
        jws_decode token
        = Some (jws_sign payload "your-super-secret-jwt-key" span issuedAt) ->
        signed_with "your-super-secret-jwt-key" token
        /\ forall now,
             now < 1000 * (issue_time payload issuedAt + span / 1000) ->
             (forall n, js_get payload "nbf" = JNum n -> 1000 * n <= now) ->
             jwt_verify token "your-super-secret-jwt-key" now
             = Ok (stamped payload (issue_time payload issuedAt)
                     (issue_time payload issuedAt + span / 1000))).
Proof.
  assert (Hs : JWT_SECRET = "your-super-secret-jwt-key")
    by (apply env_or_unset; exact Hunset).
  split; [exact Hs|].
  split; [apply env_or_unset|].
  split; [unfold generateToken; now rewrite Hs|].
  split; [intros token now; unfold verifyToken; now rewrite Hs|].
  intros token span Hspan Hgen Hparse.
  unfold generateToken in Hgen. rewrite Hs in Hgen. split.
  - eexists. split; [exact Hparse | reflexivity].
  - intros now Hnow Hactive.
    destruct (verify_issued payload "your-super-secret-jwt-key"
                "your-super-secret-jwt-key" JWT_EXPIRES_IN token span issuedAt
                now Hgen Hspan Hparse) as (_ & Hiff & Hd).
    destruct (proj2 Hiff) as [d Hok]; [auto|].
    rewrite Hok. f_equal. exact (Hd d Hok).
Qed.

End TokenLifetime.

(** ** Authorization gate *)

Section Gate.

Context {lib : Jsonwebtoken} {proc : Process}.

(** The gate, path by path. *)
Lemma run_gate_paths (handler : request -> completion) (now : Z) (req : request) :
  run_gate handler now req =
  match extractTokenFromHeader (req_authorization req) with
  | None => (Ok (Resolved denied), mkGate req [])
  | Some token =>
      if negb (truthy (JStr token)) then (Ok (Resolved denied), mkGate req [])
      else
        match verifyToken token now with
        | Throw _ => (Ok (Resolved invalid), mkGate req [Verify token])
        | Ok decoded =>
            let req' := attach req decoded in
            let st := mkGate req' [Verify token; Invoke req'] in
            match handler req' with
            | Returned r => (Ok (Resolved r), st)
            | Thrown _ => (Ok (Resolved invalid), st)
            | Rejected e => (Ok (RejectedWith e), st)
            end
        end
  end.
Proof.
  unfold run_gate, verifyJWT, try_catch, bind, get. cbn [g_req].
  destruct (extractTokenFromHeader (req_authorization req)) as [token|];
    [|reflexivity].
  destruct (negb (truthy (JStr token))); [reflexivity|].
  unfold gate_verifyToken, gate_invoke, gate_emit, set_user, bind, lift, get.
  cbn [g_req g_trace app].
  destruct (verifyToken token now) as [decoded|e]; [|reflexivity].
  unfold attach. cbn [req_authorization].
  destruct (handler _); reflexivity.
Qed.

(** What [extractTokenFromHeader] and the emptiness test let through: the
    header is Bearer, one space, and a token that is not empty. *)
Lemma bearer_token (authHeader : option string) (token : string) :
  (extractTokenFromHeader authHeader = Some token /\ truthy (JStr token) = true)
  <-> (authHeader = Some ("Bearer " ++ token) /\ token <> "").
Proof.
  unfold extractTokenFromHeader. rewrite truthy_JStr. split.
  - intros [H Hne]. destruct authHeader as [h|]; [|discriminate].
    destruct (negb (truthy (JStr h))); [discriminate|].
    destruct (startsWith h "Bearer ") eqn:Hp; [|discriminate].
    cbn [negb orb] in H. injection H as <-.
    apply startsWith_Bearer in Hp as [t ->].
    change (substring_from 7 ("Bearer " ++ t)) with t in *. auto.
  - intros [-> Hne]. split; [|exact Hne].
    destruct token; [congruence | reflexivity].
Qed.

(** None of the four refusals leaves room for an accepted bearer token. *)
Lemma refusal_excludes_acceptance (now : Z) (req : request) :
  (req_authorization req = None
   \/ (exists h, req_authorization req = Some h
                 /\ startsWith h "Bearer " = false)
   \/ req_authorization req = Some "Bearer "
   \/ (exists token e, req_authorization req = Some ("Bearer " ++ token)
                       /\ verifyToken token now = Throw e)) ->
  forall token decoded,
    req_authorization req = Some ("Bearer " ++ token) ->
    token <> "" ->
    verifyToken token now = Ok decoded -> False.
Proof.
  intros [H|[(h & H & Hp)|[H|(t & e & H & He)]]] token decoded Hh Hne Hv;
    rewrite Hh in H.
  - discriminate.
  - assert (startsWith h "Bearer " = true)
      by (apply startsWith_Bearer; exists token; congruence).
    congruence.
  - injection H as H. contradiction.
  - injection H as H. subst t. congruence.
Qed.

(** C1. Whatever the request and the handler, the gate calls the handler
    at most once, and only after [verifyToken] accepted the bearer token,
    with the decoded claims in [req.user]; when the header is missing, has
    another prefix, carries an empty token, or the token fails
    verification, the handler is not called, the request is left as it
    was, and the answer is a 401. *)
Theorem gate_invokes_once_verified (handler : request -> completion) (now : Z)
  (req : request) :
  let out := fst (run_gate handler now req) in
  let st := snd (run_gate handler now req) in
  (List.length (invocations (g_trace st)) <= 1)%nat
  /\ (forall r, In r (invocations (g_trace st)) ->
        exists token decoded,
          req_authorization req = Some ("Bearer " ++ token)
          /\ verifyToken token now = Ok decoded
          /\ req_user r = Some decoded
          /\ g_trace st = [Verify token; Invoke r])
  /\ ((req_authorization req = None
       \/ (exists h, req_authorization req = Some h
                     /\ startsWith h "Bearer " = false)
       \/ req_authorization req = Some "Bearer "
       \/ (exists token e, req_authorization req = Some ("Bearer " ++ token)
                           /\ verifyToken token now = Throw e)) ->
      invocations (g_trace st) = []
      /\ g_req st = req
      /\ exists message, out = Ok (Resolved (failure 401 message))).
Proof.
  cbn zeta. rewrite run_gate_paths.
  destruct (extractTokenFromHeader (req_authorization req)) as [token|] eqn:Hx;
    [destruct (truthy (JStr token)) eqn:Ht; cbn [negb];
     [destruct (verifyToken token now) as [decoded|e] eqn:Hv|]|].
  - destruct (proj1 (bearer_token _ _) (conj Hx Ht)) as [Hh Hne].
    pose proof (fun Hrej => refusal_excludes_acceptance now req Hrej
                              token decoded Hh Hne Hv) as Hno.
    cbn zeta.
    destruct (handler (attach req decoded));
      cbn [fst snd g_trace g_req invocations List.length];
      (split; [lia|]);
      (split; [intros r0 [<-|[]]; exists token, decoded; auto
              | intros Hrej; destruct (Hno Hrej)]).
  - cbn [fst snd g_trace g_req invocations List.length].
    split; [lia|]. split; [intros r0 []|].
    intros _. repeat split. eexists; reflexivity.
  - cbn [fst snd g_trace g_req invocations List.length].
    split; [lia|]. split; [intros r0 []|].
    intros _. repeat split. eexists; reflexivity.
  - cbn [fst snd g_trace g_req invocations List.length].
    split; [lia|]. split; [intros r0 []|].
    intros _. repeat split. eexists; reflexivity.
Qed.


End Gate.

(** ** Route handlers *)

Ltac run_route :=
  unfold signup_POST, signup_try, signup_catch, login_POST, login_try,
         me_GET, me_try, me_catch, try_catch,
         call_dbConnect, call_findOne, call_save, call_comparePassword,
         call_findById_select, call_generateToken, emit, bind, lift, ret, throw;
  cbn [db log app js_prop].
Ltac red_route := cbn [db log app js_prop negb orb andb fst snd].
Ltac step H := rewrite H; red_route.

(** Every path of a route: split on each test the run still depends on. *)
Ltac each_path H :=
  repeat (match type of H with
          | context [match ?x with _ => _ end] => destruct x eqn:?
          | context [if ?x then _ else _] => destruct x eqn:?
          end; cbn [db log app fst snd] in H).

Section RouteFacts.

Context {lib : Jsonwebtoken} {proc : Process} {rt : Runtime} {model : UserModel}.



Lemma signup_validated (request : http_request) (now : Z) (d : store) (o : jsobj) :
  dbConnect d = Ok tt ->
  request_json request = Ok (JObj o) ->
  all_present o = true ->
  length_below (js_get o "password") 6 = Ok false ->
  signup_try request now (mkRoute d []) =
  match User_findOne [("email", js_get o "email")] d with
  | Throw e => (Throw e, mkRoute d [DbConnect; FindOne [("email", js_get o "email")]])
  | Ok (Some _) =>
      (Ok (failure 409 "User already exists with this email"),
       mkRoute d [DbConnect; FindOne [("email", js_get o "email")]])
  | Ok None =>
      match User_save (signup_fields o) d with
      | (Throw e, d') =>
          (Throw e, mkRoute d' [DbConnect; FindOne [("email", js_get o "email")];
                                Save (signup_fields o)])
      | (Ok user, d') =>
          let trace := [DbConnect; FindOne [("email", js_get o "email")];
                        Save (signup_fields o); Sign (token_claims user)] in
          match generateToken (token_claims user) now with
          | Throw e => (Throw e, mkRoute d' trace)
          | Ok token =>
              (Ok (mkResponse 201
                     [ ("success", JBool true);
                       ("message", JStr "User created successfully");
                       ("user", JObj (userData user));
                       ("token", JStr token) ]),
               mkRoute d' trace)
          end
      end
  end.
Proof.
  intros Hconn Hjson Hall Hlen. unfold all_present in Hall.
  apply andb_prop in Hall as [Hall Hp]. apply andb_prop in Hall as [Hn He].
  run_route. step Hconn. step Hjson. rewrite Hn, He, Hp; red_route.
  step Hlen.
  destruct (User_findOne _ d) as [[existing|]|e]; red_route; try reflexivity.
  unfold signup_fields.
  destruct (User_save _ d) as [[user|e] d']; red_route; reflexivity.
Qed.




(** C2. A login whose email the store does not know and a login whose
    email it knows but whose password does not verify get the same
    response: status 401 and the message Invalid email or password. *)
Theorem login_failures_indistinguishable
  (request1 request2 : http_request) (now1 now2 : Z) (s1 s2 : route_state)
  (o1 o2 user : jsobj)
  (Hconn1 : dbConnect (db s1) = Ok tt)
  (Hjson1 : request_json request1 = Ok (JObj o1))
  (Hemail1 : truthy (js_get o1 "email") = true)
  (Hpass1 : truthy (js_get o1 "password") = true)
  (Hnone : User_findOne [("email", js_get o1 "email")] (db s1) = Ok None)
  (Hconn2 : dbConnect (db s2) = Ok tt)
  (Hjson2 : request_json request2 = Ok (JObj o2))
  (Hemail2 : truthy (js_get o2 "email") = true)
  (Hpass2 : truthy (js_get o2 "password") = true)
  (Hsome : User_findOne [("email", js_get o2 "email")] (db s2) = Ok (Some user))
  (Hwrong : User_comparePassword user (js_get o2 "password") (db s2) = Ok false) :
  fst (login_POST request1 now1 s1) = fst (login_POST request2 now2 s2)
  /\ fst (login_POST request1 now1 s1) = Ok (failure 401 "Invalid email or password").
Proof.
  run_route.
  rewrite Hconn1, Hconn2; red_route. rewrite Hjson1, Hjson2; red_route.
  rewrite Hemail1, Hpass1, Hemail2, Hpass2; red_route.
  rewrite Hnone, Hsome; red_route. rewrite Hwrong; red_route. split; reflexivity.
Qed.

Lemma failure_not_success (code : Z) (message : string) : ~ succeeded (failure code message).
Proof. unfold succeeded. cbn. discriminate. Qed.

Lemma userData_without_password (r : response) (user : jsobj) :
  js_get (body r) "user" = JObj (userData user) -> user_without_password r.
Proof. intros H. exists (userData user). repeat split. exact H. Qed.

Ltac settle H Hs :=
  injection H as <- <-;
  first [ exfalso; exact (failure_not_success _ _ Hs)
        | eapply userData_without_password; reflexivity ].

Lemma try_omits_password (request : http_request) (now : Z)
  (s s' : route_state) (r : response) :
  signup_try request now s = (Ok r, s')
  \/ login_try request now s = (Ok r, s')
  \/ me_try request now s = (Ok r, s') ->
  succeeded r -> user_without_password r.
Proof.
  intros [H|[H|H]] Hs; revert H; run_route; intros H; each_path H;
    try discriminate; settle H Hs.
Qed.

Lemma catch_fails (e : exn) (s s' : route_state) (r : response) :
  signup_catch e s = (Ok r, s') \/ me_catch e s = (Ok r, s')
  \/ (Ok (failure 500 "Internal server error"), s) = (Ok r, s') ->
  ~ succeeded r.
Proof.
  unfold signup_catch, me_catch, ret, throw.
  intros [H|[H|H]]; each_path H; try discriminate; injection H as <- <-;
    apply failure_not_success.
Qed.

(** C8. Whenever signup, login or me answers with success, the user object
    of the body has exactly the properties id, name, email, role, avatar,
    isVerified and createdAt: no password and no password hash. *)
Theorem responses_omit_password (request : http_request) (now : Z)
  (s s' : route_state) (r : response)
  (Hrun : signup_POST request now s = (Ok r, s')
          \/ login_POST request now s = (Ok r, s')
          \/ me_GET request now s = (Ok r, s'))
  (Hsuccess : succeeded r) :
  user_without_password r.
Proof.
  unfold signup_POST, login_POST, me_GET, try_catch in Hrun.
  destruct Hrun as [H|[H|H]].
  - destruct (signup_try request now s) as [[a|e] s1] eqn:Htry.
    + injection H as -> ->. eapply try_omits_password; eauto.
    + destruct (catch_fails e s1 s' r); auto.
  - destruct (login_try request now s) as [[a|e] s1] eqn:Htry.
    + injection H as -> ->. eapply try_omits_password; eauto.
    + destruct (catch_fails e s1 s' r); auto.
  - destruct (me_try request now s) as [[a|e] s1] eqn:Htry.
    + injection H as -> ->. eapply try_omits_password; eauto.
    + destruct (catch_fails e s1 s' r); auto.
Qed.

(** The me route once the header carries a bearer token that verifies. *)
Lemma me_verified (request : http_request) (now : Z) (d : store)
  (token : string) (decoded : jwt_payload) :
  dbConnect d = Ok tt ->
  request_authorization request = Some ("Bearer " ++ token) ->
  token <> "" ->
  verifyToken token now = Ok decoded ->
  let id := payload_get decoded "userId" in
  let s1 := mkRoute d [DbConnect; FindById id "-password"] in
  me_GET request now (mkRoute d []) =
  match User_findById_select id "-password" d with
  | Ok None => (Ok (failure 404 "User not found"), s1)
  | Ok (Some user) =>
      (Ok (mkResponse 200 [("success", JBool true);
                           ("user", JObj (userData user))]), s1)
  | Throw e => me_catch e s1
  end.
Proof.
  intros Hconn Hheader Hne Hverify.
  destruct (proj2 (bearer_token (Some ("Bearer " ++ token)) token)
              (conj eq_refl Hne)) as [Hx Ht].
  cbn zeta. run_route. step Hconn. rewrite Hheader, Hx, Ht. red_route.
  step Hverify.
  destruct (User_findById_select _ _ d) as [[user|]|e]; reflexivity.
Qed.


End RouteFacts.

(** ** Password hasher *)

Section Hasher.

Context {H : Hashing}.

(** What the hasher of the specification gives: the plaintext that was
    hashed verifies, and another plaintext verifies exactly when the
    one-way function gives it the same digest under the salt. *)
Lemma verify_recomputes (salt plaintext : string) :
  parse_hash (render_hash salt (kdf salt plaintext))
  = Some (salt, kdf salt plaintext) ->
  exists stored,
    PasswordHasher.hash (Some salt) plaintext = Ok stored
    /\ PasswordHasher.verify plaintext stored = Ok true
    /\ forall other,
         PasswordHasher.verify other stored
         = Ok (String.eqb (kdf salt other) (kdf salt plaintext)).
Proof.
  intros Hformat. exists (render_hash salt (kdf salt plaintext)).
  unfold PasswordHasher.hash, PasswordHasher.verify. rewrite Hformat.
  split; [reflexivity|]. split; [now rewrite String.eqb_refl | reflexivity].
Qed.

End Hasher.

(** ** Worked examples *)

Example extract_bearer :
  extractTokenFromHeader (Some "Bearer abc.def.ghi") = Some "abc.def.ghi".
Proof. reflexivity. Qed.

Example extract_other_scheme :
  extractTokenFromHeader (Some "Basic xyz") = None
  /\ extractTokenFromHeader (Some "bearer abc") = None
  /\ extractTokenFromHeader (Some "Bearerabc") = None
  /\ extractTokenFromHeader None = None.
Proof. repeat split. Qed.

Example extract_nothing_after_prefix :
  extractTokenFromHeader (Some "Bearer ") = Some ""
  /\ truthy (JStr "") = false.
Proof. split; reflexivity. Qed.

(** The scenario of the specification: Ann signs up, logs in and asks who
    she is; Bob then signs up with her email. *)
Example scenario_ann :
  let signup := signup_POST (lib := Sample.jwt) (proc := Sample.unset)
                  (rt := Sample.runtime) (model := Sample.users) in
  let login := login_POST (lib := Sample.jwt) (proc := Sample.unset)
                 (model := Sample.users) in
  let me := me_GET (lib := Sample.jwt) (proc := Sample.unset)
              (model := Sample.users) in
  Sample.status_of (signup (Sample.post Sample.ann_body) 1000500
                      (Sample.sample_state [])) = Some 201
  /\ db (snd (signup (Sample.post Sample.ann_body) 1000500
                (Sample.sample_state []))) = Sample.registered
  /\ fst (login (Sample.post (Sample.login_body "ann@x.com" "secret1")) 1000500
            (Sample.sample_state Sample.registered))
     = Ok (mkResponse 200
             [("success", JBool true);
              ("message", JStr "Login successful");
              ("user", JObj (userData (hd [] Sample.registered)));
              ("token", JStr Sample.ann_token)])
  /\ Sample.status_of (me (Sample.me_request Sample.ann_token) 2000000
                         (Sample.sample_state Sample.registered)) = Some 200
  /\ Sample.status_of
       (signup (Sample.post (JObj [("name", JStr "Bob");
                                   ("email", JStr "ann@x.com");
                                   ("password", JStr "secret2")])) 3000000
          (Sample.sample_state Sample.registered)) = Some 409.
Proof. cbn zeta. repeat split; vm_compute; reflexivity. Qed.

(** With the connection down every route answers 500. *)
Example offline_answers_500 :
  Sample.status_of
    (signup_POST (lib := Sample.jwt) (proc := Sample.unset)
       (rt := Sample.runtime) (model := Sample.offline)
       (Sample.post Sample.ann_body) 0 (mkRoute (model := Sample.offline) tt []))
  = Some 500
  /\ Sample.status_of
       (login_POST (lib := Sample.jwt) (proc := Sample.unset)
          (model := Sample.offline)
          (Sample.post (Sample.login_body "ann@x.com" "secret1")) 0
          (mkRoute (model := Sample.offline) tt []))
     = Some 500
  /\ Sample.status_of
       (me_GET (lib := Sample.jwt) (proc := Sample.unset)
          (model := Sample.offline)
          (Sample.me_request Sample.ann_token) 0
          (mkRoute (model := Sample.offline) tt []))
     = Some 500.
Proof. repeat split. Qed.

(** The stand-in signature separates keys. *)
Lemma sample_key_separation (secret k : string) (p : jwt_payload) :
  @hmac Sample.jwt k p = @hmac Sample.jwt secret p -> k = secret.
Proof.
  cbn [hmac Sample.jwt]. intros H.
  apply append_inv_head in H. now injection H.
Qed.

(** C3, as stated, fails on both of its parts. Ann's token, issued at
    1000 s for seven days, expires at 605800 s: at that second it is well
    formed, its signature matches and the clock is not past the expiry, yet
    [verifyToken] refuses it; so it does a token that is not valid before a
    later time, and one whose expiry is a text. And where the signature
    fills a short key with zero bytes, as HMAC does, Ann's claims signed
    with the default secret followed by a zero byte, another secret than
    the current one, are accepted. *)
Lemma verifyToken_refuses_otherwise :
  (forall token now,
     In (token, now) [ (Sample.ann_token, 605800000);
                       (Sample.early_token, 5000);
                       (Sample.odd_token, 5000) ] ->
     @verifyToken Sample.jwt Sample.unset token now
     = Throw (Error "Invalid token")
     /\ @malformed Sample.jwt token = false
     /\ @signature_matches Sample.jwt (@JWT_SECRET Sample.unset) token = true
     /\ @past_expiry Sample.jwt token now = false)
  /\ ~ (forall token now,
          @verifyToken Sample.jwt Sample.unset token now
          = Throw (Error "Invalid token")
          <-> @malformed Sample.jwt token = true
              \/ @signature_matches Sample.jwt (@JWT_SECRET Sample.unset) token
                 = false
              \/ @past_expiry Sample.jwt token now = true)
  /\ Sample.padded_secret <> @JWT_SECRET Sample.unset
  /\ @signed_with Sample.padding_jwt Sample.padded_secret Sample.padded_token
  /\ @verifyToken Sample.padding_jwt Sample.unset Sample.padded_token 5000
     = Ok Sample.ann_decoded
  /\ ~ (forall secret token now,
          secret <> @JWT_SECRET Sample.unset ->
          @signed_with Sample.padding_jwt secret token ->
          @verifyToken Sample.padding_jwt Sample.unset token now
          = Throw (Error "Invalid token")).
Proof.
  assert (Hthree : forall token now,
             In (token, now) [ (Sample.ann_token, 605800000);
                               (Sample.early_token, 5000);
                               (Sample.odd_token, 5000) ] ->
             @verifyToken Sample.jwt Sample.unset token now
             = Throw (Error "Invalid token")
             /\ @malformed Sample.jwt token = false
             /\ @signature_matches Sample.jwt (@JWT_SECRET Sample.unset) token
                = true
             /\ @past_expiry Sample.jwt token now = false).
  { intros token now [H|[H|[H|[]]]]; injection H as <- <-;
      repeat split; vm_compute; reflexivity. }
  assert (Hsecret : Sample.padded_secret <> @JWT_SECRET Sample.unset)
    by (vm_compute; discriminate).
  assert (Hsigned : @signed_with Sample.padding_jwt Sample.padded_secret
                      Sample.padded_token)
    by (eexists; split; vm_compute; reflexivity).
  assert (Haccepted : @verifyToken Sample.padding_jwt Sample.unset
                        Sample.padded_token 5000 = Ok Sample.ann_decoded)
    by (vm_compute; reflexivity).
  split; [exact Hthree|]. split.
  - intros Hiff.
    destruct (Hthree Sample.ann_token 605800000 (or_introl eq_refl))
      as (Hv & Hm & Hs & Hp).
    destruct (proj1 (Hiff _ _) Hv) as [H|[H|H]]; congruence.
  - repeat split; try assumption.
    intros Hall.
    specialize (Hall _ _ 5000 Hsecret Hsigned). congruence.
Qed.

Lemma verifyToken_refuses_exactly_witness :
  @verifyToken Sample.jwt Sample.unset "no token" 0 = Throw (Error "Invalid token")
  /\ @verifyToken Sample.jwt Sample.configured Sample.ann_token 2000000
     = Throw (Error "Invalid token")
  /\ @verifyToken Sample.jwt Sample.unset Sample.early_token 5000
     = Throw (Error "Invalid token")
  /\ @verifyToken Sample.jwt Sample.unset Sample.odd_token 5000
     = Throw (Error "Invalid token").
Proof.
  repeat apply conj.
  - apply (@verifyToken_refuses_exactly Sample.jwt Sample.unset "no token" 0).
    left. reflexivity.
  - destruct (@verifyToken_refuses_exactly Sample.jwt Sample.configured
                Sample.ann_token 2000000) as (_ & _ & Hother & _).
    apply (Hother "your-super-secret-jwt-key"
             (mkJws Sample.ann_decoded
                (@hmac Sample.jwt "your-super-secret-jwt-key"
                   Sample.ann_decoded))).
    + vm_compute. reflexivity.
    + reflexivity.
    + intros H. apply sample_key_separation in H. discriminate.
  - apply (@verifyToken_refuses_exactly Sample.jwt Sample.unset
             Sample.early_token 5000).
    right; right; right; left. vm_compute. reflexivity.
  - apply (@verifyToken_refuses_exactly Sample.jwt Sample.unset
             Sample.odd_token 5000).
    right; right; left. vm_compute. reflexivity.
Defined.



Lemma unset_secret_falls_back_witness :
  @JWT_SECRET Sample.unset = "your-super-secret-jwt-key"
  /\ @jwt_verify Sample.jwt Sample.ann_token "your-super-secret-jwt-key" 5000
     = Ok Sample.ann_decoded.
Proof.
  assert (Hissued : @generateToken Sample.jwt Sample.unset Sample.ann_claims
                      1000500 = Ok Sample.ann_token)
    by (vm_compute; reflexivity).
  assert (Hparse : @jws_decode Sample.jwt Sample.ann_token
                   = Some (@jws_sign Sample.jwt Sample.ann_claims
                             "your-super-secret-jwt-key" 604800000 1000500))
    by (vm_compute; reflexivity).
  destruct (@unset_secret_falls_back Sample.jwt Sample.unset Sample.ann_claims
              1000500 eq_refl) as (Hs & _ & _ & _ & Htokens).
  split; [exact Hs|].
  destruct (Htokens Sample.ann_token 604800000 eq_refl Hissued Hparse)
    as [_ Hverify].
  apply (Hverify 5000); [reflexivity | intros n Hn; discriminate].
Defined.

Lemma gate_invokes_once_verified_witness :
  let run := @run_gate Sample.jwt Sample.unset Sample.ok_handler 5000 in
  invocations (g_trace (snd (run (Sample.bearer Sample.ann_token))))
  = [mkRequest (Some ("Bearer " ++ Sample.ann_token))
       (Some Sample.ann_decoded)]
  /\ invocations (g_trace (snd (run Sample.basic_request))) = []
  /\ g_req (snd (run Sample.basic_request)) = Sample.basic_request.
Proof.
  cbn zeta. split; [vm_compute; reflexivity|].
  destruct (@gate_invokes_once_verified Sample.jwt Sample.unset Sample.ok_handler 5000
              Sample.basic_request) as (_ & _ & Hrefused).
  destruct Hrefused as (Hnone & Hreq & _); [|now split].
  right; left. exists "Basic xyz". split; reflexivity.
Defined.


Lemma login_failures_indistinguishable_witness :
  fst (login_POST (lib := Sample.jwt) (proc := Sample.unset)
         (model := Sample.users)
         (Sample.post (Sample.login_body "bob@x.com" "secret1")) 5000
         (Sample.sample_state Sample.registered))
  = fst (login_POST (lib := Sample.jwt) (proc := Sample.unset)
           (model := Sample.users)
           (Sample.post (Sample.login_body "ann@x.com" "secret2")) 7000
           (Sample.sample_state Sample.registered)).
Proof.
  refine (proj1 (login_failures_indistinguishable (lib := Sample.jwt)
                   (proc := Sample.unset) (model := Sample.users)
                   (Sample.post (Sample.login_body "bob@x.com" "secret1"))
                   (Sample.post (Sample.login_body "ann@x.com" "secret2")) 5000 7000
                   (Sample.sample_state Sample.registered)
                   (Sample.sample_state Sample.registered)
                   [("email", JStr "bob@x.com"); ("password", JStr "secret1")]
                   [("email", JStr "ann@x.com"); ("password", JStr "secret2")]
                   (hd [] Sample.registered)
                   _ _ _ _ _ _ _ _ _ _ _));
    reflexivity.
Defined.




Lemma responses_omit_password_witness :
  exists r s',
    signup_POST (lib := Sample.jwt) (proc := Sample.unset)
      (rt := Sample.runtime) (model := Sample.users)
      (Sample.post Sample.ann_body) 1000500 (Sample.sample_state []) = (Ok r, s')
    /\ status r = 201
    /\ user_without_password r.
Proof.
  eexists. eexists. split; [vm_compute; reflexivity|].
  split; [reflexivity|].
  eapply (responses_omit_password (lib := Sample.jwt) (proc := Sample.unset)
            (rt := Sample.runtime) (model := Sample.users)
            (Sample.post Sample.ann_body) 1000500 (Sample.sample_state [])).
  - left. vm_compute. reflexivity.
  - reflexivity.
Defined.

(** * Further properties *)

(** ** Token service *)

Section TokenExtras.
Context {lib : Jsonwebtoken} {proc : Process}.

(** X1. [extractTokenFromHeader] undoes the prefixing of Bearer and a
    space, and nothing else: it returns a token exactly for the headers
    that are the prefix followed by that token (kept as it is, empty or
    with spaces), and [null] exactly for the headers without the prefix. *)
Theorem extract_inverts_prefix (h : string) :
  (forall token, extractTokenFromHeader (Some h) = Some token
                 <-> h = "Bearer " ++ token)
  /\ (extractTokenFromHeader (Some h) = None
      <-> ~ exists token, h = "Bearer " ++ token)
  /\ extractTokenFromHeader (Some ("Bearer " ++ h)) = Some h.
Proof.
  assert (Hinv : forall t, extractTokenFromHeader (Some ("Bearer " ++ t)) = Some t).
  { intros t. unfold extractTokenFromHeader, startsWith.
    replace (String.prefix "Bearer " ("Bearer " ++ t)) with true
      by (symmetry; apply prefix_append; eauto).
    reflexivity. }
  assert (Hfwd : forall t, extractTokenFromHeader (Some h) = Some t ->
                           h = "Bearer " ++ t).
  { intros t. unfold extractTokenFromHeader.
    destruct (negb (truthy (JStr h))); [discriminate|].
    destruct (startsWith h "Bearer ") eqn:Hp; [|discriminate].
    apply startsWith_Bearer in Hp as [t' ->]. cbn [negb orb].
    intros H. injection H as <-. reflexivity. }
  split; [|split].
  - intros t. split; [apply Hfwd | intros ->; apply Hinv].
  - split.
    + intros Hnone [t Ht]. subst h. rewrite Hinv in Hnone. discriminate.
    + intros Hno. destruct (extractTokenFromHeader (Some h)) as [t|] eqn:Hx;
        [|reflexivity].
      exfalso. apply Hno. exists t. now apply Hfwd.
  - apply Hinv.
Qed.

(** X2. The signing secret and the expiry text are never empty: a
    variable that is set to a non-empty value is used as it is, and one
    that is set to the empty string falls back to the default like one that
    is unset. *)
Theorem secret_never_empty :
  JWT_SECRET <> ""
  /\ JWT_EXPIRES_IN <> ""
  /\ (forall v, env "JWT_SECRET" = Some v -> v <> "" -> JWT_SECRET = v)
  /\ (forall v, env "JWT_EXPIRES_IN" = Some v -> v <> "" -> JWT_EXPIRES_IN = v)
  /\ (env "JWT_SECRET" = Some "" -> JWT_SECRET = "your-super-secret-jwt-key")
  /\ (env "JWT_EXPIRES_IN" = Some "" -> JWT_EXPIRES_IN = "7d").
Proof.
  assert (Hne : forall name fallback, fallback <> "" -> env_or name fallback <> "").
  { intros name fallback Hf. unfold env_or.
    destruct (env name) as [v|]; [|exact Hf].
    destruct (truthy (JStr v)) eqn:Ht; [|exact Hf].
    now apply truthy_JStr. }
  assert (Hset : forall name fallback v,
             env name = Some v -> v <> "" -> env_or name fallback = v).
  { intros name fallback v Hv Hn. unfold env_or. rewrite Hv.
    apply truthy_JStr in Hn. now rewrite Hn. }
  repeat split.
  - apply Hne. discriminate.
  - apply Hne. discriminate.
  - apply Hset.
  - apply Hset.
  - intros H. unfold JWT_SECRET, env_or. now rewrite H.
  - intros H. unfold JWT_EXPIRES_IN, env_or. now rewrite H.
Qed.

(** X3. What [verifyToken] returns is the payload of the token itself, the
    token carries the signature the process secret gives that payload, its
    expiry, if it has one, lies after the time of the check, and its
    not-before time, if it has one, does not. *)
Theorem verified_claims_were_signed (token : string) (now : Z) (decoded : jwt_payload)
  (Hok : verifyToken token now = Ok decoded) :
  signed_with JWT_SECRET token
  /\ (exists signature, jws_decode token = Some (mkJws decoded signature))
  /\ (forall e, payload_get decoded "exp" = JNum e -> now < 1000 * e)
  /\ (forall n, payload_get decoded "nbf" = JNum n -> 1000 * n <= now).
Proof.
  unfold verifyToken in Hok.
  destruct (jwt_verify token JWT_SECRET now) as [d|] eqn:Hv; [|discriminate].
  injection Hok as ->. unfold jwt_verify in Hv.
  destruct (jws_decode token) as [[p signature]|] eqn:Hd; [|discriminate].
  cbn [jws_payload jws_signature] in Hv.
  destruct (String.eqb_spec (hmac JWT_SECRET p) signature) as [Hs|];
    [|discriminate].
  pose proof (check_claims_returns _ _ _ Hv) as ->.
  destruct (proj1 (check_claims_Ok_iff p (clockTimestamp now)))
    as (_ & _ & Hnbf & Hexp); [eauto|].
  split; [|split; [|split]].
  - exists (mkJws p signature). split; [exact Hd | now symmetry].
  - eauto.
  - intros e He. apply clock_before. now apply Hexp.
  - intros n Hn. apply Hnbf in Hn. unfold clockTimestamp in Hn.
    pose proof (Z.mul_div_le now 1000 ltac:(lia)). lia.
Qed.
End TokenExtras.

(** X4. Whether a process accepts a token another process issued is
    decided by the secret and by what was stamped at the issue, not by who
    issued it: it is accepted exactly when the secret of the verifier gives
    the stamped payload the signature the issuer's secret gave it, the
    clock is before the stamped expiry and not before the not-before time
    of the payload, if it has one. So a process with the issuer's
    JWT_SECRET accepts it until that expiry, whatever its own
    JWT_EXPIRES_IN, and a process whose secret signs the payload differently
    refuses it at every time. *)
Theorem token_accepted_by_secret_alone {lib : Jsonwebtoken} (issuer verifier : Process)
  (payload : jsobj) (issuedAt span : Z) (token : string)
  (Hspan : ms (JWT_EXPIRES_IN (proc := issuer)) = Some span)
  (Hissued : generateToken (proc := issuer) payload issuedAt = Ok token)
  (Hparse : jws_decode token
            = Some (jws_sign payload (JWT_SECRET (proc := issuer)) span issuedAt)) :
  let t0 := issue_time payload issuedAt in
  let expiry := t0 + span / 1000 in
  let decoded := stamped payload t0 expiry in
  let active now :=
    forall n, js_get payload "nbf" = JNum n -> 1000 * n <= now in
  (forall now,
     (exists d, verifyToken (proc := verifier) token now = Ok d) <->
     hmac (JWT_SECRET (proc := verifier)) decoded
     = hmac (JWT_SECRET (proc := issuer)) decoded
     /\ now < 1000 * expiry /\ active now)
  /\ (forall now d, verifyToken (proc := verifier) token now = Ok d -> d = decoded)
  /\ (JWT_SECRET (proc := verifier) = JWT_SECRET (proc := issuer) ->
      forall now, now < 1000 * expiry -> active now ->
                  verifyToken (proc := verifier) token now = Ok decoded)
  /\ (hmac (JWT_SECRET (proc := verifier)) decoded
      <> hmac (JWT_SECRET (proc := issuer)) decoded ->
      forall now, verifyToken (proc := verifier) token now
                  = Throw (Error "Invalid token")).
Proof.
  intros t0 expiry decoded active.
  pose proof (fun now => verifyToken_issued (proc := verifier) payload
                           (JWT_SECRET (proc := issuer))
                           (JWT_EXPIRES_IN (proc := issuer))
                           token span issuedAt now Hissued Hspan Hparse) as Hv.
  cbn zeta in Hv. fold t0 expiry decoded in Hv.
  assert (Hcases : forall now,
             (hmac (JWT_SECRET (proc := verifier)) decoded
              = hmac (JWT_SECRET (proc := issuer)) decoded
              /\ now < 1000 * expiry /\ active now)
             \/ verifyToken (proc := verifier) token now
                = Throw (Error "Invalid token")).
  { intros now.
    destruct (verifyToken (proc := verifier) token now) as [d|e] eqn:Hrun.
    - left.
      destruct (verify_issued payload (JWT_SECRET (proc := issuer))
                  (JWT_SECRET (proc := verifier))
                  (JWT_EXPIRES_IN (proc := issuer)) token span issuedAt now
                  Hissued Hspan Hparse) as (_ & Hiff & _).
      apply Hiff. unfold verifyToken in Hrun.
      destruct (jwt_verify token (JWT_SECRET (proc := verifier)) now);
        [eauto | discriminate].
    - right. now rewrite (verifyToken_throws _ _ _ Hrun). }
  repeat apply conj.
  - intros now. split.
    + intros [d Hd]. destruct (Hcases now) as [H|H]; [exact H | congruence].
    + intros H. exists decoded. now apply Hv.
  - intros now d Hd. destruct (Hcases now) as [H|H]; [|congruence].
    apply Hv in H. congruence.
  - intros Hsame now Hnow Hactive. apply Hv. rewrite Hsame. auto.
  - intros Hdiff now. apply Hv. intros (Hsame & _). contradiction.
Qed.

(** ** Authorization gate *)

Section GateExtras.
Context {lib : Jsonwebtoken} {proc : Process}.

Lemma run_gate_accepted (handler : request -> completion) (now : Z)
  (req : request) (token : string) (decoded : jwt_payload) :
  req_authorization req = Some ("Bearer " ++ token) ->
  token <> "" ->
  verifyToken token now = Ok decoded ->
  run_gate handler now req =
  let req' := attach req decoded in
  let st := mkGate req' [Verify token; Invoke req'] in
  match handler req' with
  | Returned r => (Ok (Resolved r), st)
  | Thrown _ => (Ok (Resolved invalid), st)
  | Rejected e => (Ok (RejectedWith e), st)
  end.
Proof.
  intros Hh Hne Hv.
  destruct (proj2 (bearer_token (Some ("Bearer " ++ token)) token)
              (conj eq_refl Hne)) as [Hx Ht].
  rewrite run_gate_paths, Hh, Hx, Ht. cbn [negb]. now rewrite Hv.
Qed.

(** X5. For a bearer token that verifies, the gate calls the handler once,
    with the header unchanged and [req.user] replaced by the decoded
    claims, and gives back the handler's response as it is. *)
Theorem gate_passes_response_through (handler : request -> completion) (now : Z)
  (req : request) (token : string) (decoded : jwt_payload) (r : response)
  (Hheader : req_authorization req = Some ("Bearer " ++ token))
  (Hne : token <> "")
  (Hverify : verifyToken token now = Ok decoded)
  (Hreturns : handler (mkRequest (req_authorization req) (Some decoded))
              = Returned r) :
  fst (run_gate handler now req) = Ok (Resolved r)
  /\ invocations (g_trace (snd (run_gate handler now req)))
     = [mkRequest (req_authorization req) (Some decoded)]
  /\ g_req (snd (run_gate handler now req))
     = mkRequest (req_authorization req) (Some decoded).
Proof.
  rewrite (run_gate_accepted handler now req token decoded Hheader Hne Hverify).
  cbn zeta. unfold attach. rewrite Hreturns. repeat split.
Qed.

(** X6. An exception the handler throws synchronously, after a successful
    verification, is answered by the gate as 401 Invalid token. with the
    claims left on the request; a promise the handler returns and that
    rejects is not caught by the gate. *)
Theorem gate_masks_handler_exception (handler : request -> completion) (now : Z)
  (req : request) (token : string) (decoded : jwt_payload) (e : exn)
  (Hheader : req_authorization req = Some ("Bearer " ++ token))
  (Hne : token <> "")
  (Hverify : verifyToken token now = Ok decoded) :
  (handler (attach req decoded) = Thrown e ->
   fst (run_gate handler now req) = Ok (Resolved (failure 401 "Invalid token."))
   /\ req_user (g_req (snd (run_gate handler now req))) = Some decoded
   /\ invocations (g_trace (snd (run_gate handler now req)))
      = [attach req decoded])
  /\ (handler (attach req decoded) = Rejected e ->
      fst (run_gate handler now req) = Ok (RejectedWith e)).
Proof.
  rewrite (run_gate_accepted handler now req token decoded Hheader Hne Hverify).
  cbn zeta. split; intros ->; repeat split.
Qed.

(** X7. A bearer token that fails verification is answered 401 with the
    message Invalid token., after one call of [verifyToken] and none of
    the handler; the message is not the one of a missing token, so the
    caller can tell the two refusals apart. *)
Theorem gate_reports_invalid_token (handler : request -> completion) (now : Z)
  (req : request) (token : string) (e : exn)
  (Hheader : req_authorization req = Some ("Bearer " ++ token))
  (Hne : token <> "")
  (Hverify : verifyToken token now = Throw e) :
  run_gate handler now req
  = (Ok (Resolved (failure 401 "Invalid token.")), mkGate req [Verify token])
  /\ failure 401 "Invalid token."
     <> failure 401 "Access denied. No token provided.".
Proof.
  destruct (proj2 (bearer_token (Some ("Bearer " ++ token)) token)
              (conj eq_refl Hne)) as [Hx Ht].
  split.
  - rewrite run_gate_paths, Hheader, Hx, Ht. cbn [negb]. now rewrite Hverify.
  - discriminate.
Qed.

End GateExtras.

(** ** Route handlers *)

Section RouteExtras.
Context {lib : Jsonwebtoken} {proc : Process} {rt : Runtime} {model : UserModel}.

Lemma login_validated (request : http_request) (now : Z) (d : store) (o : jsobj) :
  dbConnect d = Ok tt ->
  request_json request = Ok (JObj o) ->
  truthy (js_get o "email") = true ->
  truthy (js_get o "password") = true ->
  let query := [("email", js_get o "email")] in
  login_try request now (mkRoute d []) =
  match User_findOne query d with
  | Throw e => (Throw e, mkRoute d [DbConnect; FindOne query])
  | Ok None =>
      (Ok (failure 401 "Invalid email or password"),
       mkRoute d [DbConnect; FindOne query])
  | Ok (Some user) =>
      let compared := [DbConnect; FindOne query;
                       ComparePassword user (js_get o "password")] in
      match User_comparePassword user (js_get o "password") d with
      | Throw e => (Throw e, mkRoute d compared)
      | Ok false =>
          (Ok (failure 401 "Invalid email or password"), mkRoute d compared)
      | Ok true =>
          let signed := (compared ++ [Sign (token_claims user)])%list in
          match generateToken (token_claims user) now with
          | Throw e => (Throw e, mkRoute d signed)
          | Ok token =>
              (Ok (mkResponse 200
                     [ ("success", JBool true);
                       ("message", JStr "Login successful");
                       ("user", JObj (userData user));
                       ("token", JStr token) ]),
               mkRoute d signed)
          end
      end
  end.
Proof.
  intros Hconn Hjson He Hp. cbn zeta.
  run_route. step Hconn. step Hjson. rewrite He, Hp; red_route.
  destruct (User_findOne _ d) as [[user|]|e]; red_route; try reflexivity.
  destruct (User_comparePassword user _ d) as [[|]|e]; red_route;
    reflexivity.
Qed.

(** X8. A login whose object body has no email or no password (absent,
    empty, null, false or 0) is answered 400 Please provide email and
    password before the store is asked anything. *)
Theorem login_requires_both_fields (request : http_request) (now : Z) (d : store)
  (o : jsobj)
  (Hconn : dbConnect d = Ok tt)
  (Hjson : request_json request = Ok (JObj o))
  (Hmissing : truthy (js_get o "email") && truthy (js_get o "password") = false) :
  login_POST request now (mkRoute d [])
  = (Ok (failure 400 "Please provide email and password"), mkRoute d [DbConnect]).
Proof.
  run_route. step Hconn. step Hjson.
  destruct (truthy (js_get o "email")), (truthy (js_get o "password"));
    try discriminate; reflexivity.
Qed.

(** X9. A login whose email the store finds and whose password it
    confirms is answered 200 with the user data and the token signed for
    that user, after one lookup by the email as it was sent, one password
    comparison and one signing, the store being left as it was. *)
Theorem login_success (request : http_request) (now : Z) (d : store)
  (o user : jsobj) (token : string)
  (Hconn : dbConnect d = Ok tt)
  (Hjson : request_json request = Ok (JObj o))
  (Hemail : truthy (js_get o "email") = true)
  (Hpassword : truthy (js_get o "password") = true)
  (Hfound : User_findOne [("email", js_get o "email")] d = Ok (Some user))
  (Hvalid : User_comparePassword user (js_get o "password") d = Ok true)
  (Hsigned : generateToken (token_claims user) now = Ok token) :
  login_POST request now (mkRoute d [])
  = (Ok (mkResponse 200
           [ ("success", JBool true);
             ("message", JStr "Login successful");
             ("user", JObj (userData user));
             ("token", JStr token) ]),
     mkRoute d [DbConnect; FindOne [("email", js_get o "email")];
                ComparePassword user (js_get o "password");
                Sign (token_claims user)]).
Proof.
  unfold login_POST, try_catch.
  rewrite (login_validated request now d o Hconn Hjson Hemail Hpassword).
  cbn zeta. rewrite Hfound, Hvalid. cbn [app]. rewrite Hsigned. reflexivity.
Qed.

Lemma login_try_trace (request : http_request) (now : Z) (d : store)
  (res : result response) (s' : route_state) :
  login_try request now (mkRoute d []) = (res, s') ->
  db s' = d
  /\ saves (log s') = []
  /\ (forall payload, In payload (signs (log s')) ->
        exists email password user,
          In (FindOne [("email", email)]) (log s')
          /\ User_findOne [("email", email)] d = Ok (Some user)
          /\ In (ComparePassword user password) (log s')
          /\ User_comparePassword user password d = Ok true
          /\ payload = token_claims user).
Proof.
  run_route. intros H. each_path H; injection H as <- <-;
    cbn [db log saves signs app]; (split; [reflexivity|]);
    (split; [reflexivity|]); intros payload Hin; try contradiction.
  all: destruct Hin as [<-|[]].
  all: match goal with
       | Hn : negb ?b = false |- _ => apply negb_false_iff in Hn; subst b
       end.
  all: do 3 eexists; repeat split; try eassumption; cbn; auto.
Qed.

Lemma login_catch_keeps_state (request : http_request) (now : Z) (s : route_state) :
  snd (login_POST request now s) = snd (login_try request now s).
Proof.
  unfold login_POST, try_catch.
  destruct (login_try request now s) as [[r|e] s']; reflexivity.
Qed.

(** X10. Whatever the request, login leaves the store as it was and saves
    nothing, and it signs a payload only for a user that the lookup
    returned and whose password comparison answered true. *)
Theorem login_signs_only_after_password (request : http_request) (now : Z)
  (d : store) :
  let s' := snd (login_POST request now (mkRoute d [])) in
  db s' = d
  /\ saves (log s') = []
  /\ (forall payload, In payload (signs (log s')) ->
        exists email password user,
          In (FindOne [("email", email)]) (log s')
          /\ User_findOne [("email", email)] d = Ok (Some user)
          /\ In (ComparePassword user password) (log s')
          /\ User_comparePassword user password d = Ok true
          /\ payload = token_claims user).
Proof.
  cbn zeta. rewrite login_catch_keeps_state.
  destruct (login_try request now (mkRoute d [])) as [res s'] eqn:H.
  exact (login_try_trace request now d res s' H).
Qed.

(** *** signup *)

(** Only an object has a truthy property of another name than length. *)
Lemma truthy_prop_of_object (json v : jsval) (k : string) :
  js_prop json k = Ok v -> truthy v = true -> String.eqb k "length" = false ->
  exists o, json = JObj o /\ v = js_get o k.
Proof.
  intros Hprop Hv Hk. destruct json; cbn [js_prop] in Hprop;
    try rewrite Hk in Hprop; try discriminate;
    injection Hprop as <-; try discriminate; eauto.
Qed.

Lemma signup_try_trace (request : http_request) (now : Z) (d : store)
  (res : result response) (s' : route_state) :
  signup_try request now (mkRoute d []) = (res, s') ->
  (List.length (saves (log s')) <= 1)%nat
  /\ (saves (log s') = [] -> db s' = d)
  /\ (forall fields, In fields (saves (log s')) ->
        exists o,
          request_json request = Ok (JObj o)
          /\ fields = [ ("name", js_get o "name"); ("email", js_get o "email");
                        ("password", js_get o "password") ]
          /\ truthy (js_get o "name") = true
          /\ truthy (js_get o "email") = true
          /\ truthy (js_get o "password") = true
          /\ length_below (js_get o "password") 6 = Ok false
          /\ User_findOne [("email", js_get o "email")] d = Ok None
          /\ db s' = snd (User_save fields d))
  /\ (forall payload, In payload (signs (log s')) ->
        exists fields user,
          saves (log s') = [fields]
          /\ fst (User_save fields d) = Ok user
          /\ payload = token_claims user).
Proof.
  run_route. intros H. each_path H;
    repeat match goal with
           | Hs : (let (_, _) := User_save ?f ?x in _) = _ |- _ =>
               destruct (User_save f x) as [? ?] eqn:?;
               injection Hs as ? ?; subst
           end;
    injection H as <- <-;
    cbn [db log saves signs app List.length];
    (split; [lia|]); (split; [try reflexivity; try discriminate|]);
    (split; [intros fields Hin; try contradiction
            | intros payload Hin; try contradiction]).
  all: destruct Hin as [<-|[]].
  all: try match goal with
           | Hn : _ || _ || _ = false |- _ =>
               apply orb_false_iff in Hn as [Hn ?Hp];
               apply orb_false_iff in Hn as [?Hn ?He];
               repeat match goal with
                      | Hx : negb _ = false |- _ => apply negb_false_iff in Hx
                      end
           end.
  all: try match goal with
           | Hs : User_save _ _ = _ |- _ => rewrite Hs
           end.
  all: try match goal with
           | Hn : js_prop ?json "name" = Ok ?v, Ht : truthy ?v = true |- _ =>
               destruct (truthy_prop_of_object _ _ _ Hn Ht eq_refl)
                 as [o [-> ->]];
               cbn [js_prop] in *;
               repeat match goal with
                      | Hx : Ok _ = Ok _ |- _ => injection Hx as <-
                      end;
               exists o; repeat split; assumption
           end.
  all: try (do 2 eexists; repeat split; cbn [fst]; try eassumption;
            match goal with
            | Hs : User_save _ _ = _ |- _ => rewrite Hs; reflexivity
            end).
Qed.

Lemma signup_catch_keeps_state (request : http_request) (now : Z) (s : route_state) :
  snd (signup_POST request now s) = snd (signup_try request now s).
Proof.
  unfold signup_POST, try_catch, signup_catch, ret, throw.
  destruct (signup_try request now s) as [[r|e] s']; [reflexivity|].
  destruct (String.eqb (exn_name e) "ValidationError"); [|reflexivity].
  destruct (exn_errors e); reflexivity.
Qed.

(** X11. Whatever the request, signup asks the store to save at most once,
    and then the body is an object and what is saved is its name, its
    email and its password, all three present, the length check passed on
    that password and the lookup by that email found no user; without a
    save the store is as it was, and a payload is signed only for the user
    a save returned. *)
Theorem signup_saves_once_after_checks (request : http_request) (now : Z)
  (d : store) :
  let s' := snd (signup_POST request now (mkRoute d [])) in
  (List.length (saves (log s')) <= 1)%nat
  /\ (saves (log s') = [] -> db s' = d)
  /\ (forall fields, In fields (saves (log s')) ->
        exists o,
          request_json request = Ok (JObj o)
          /\ fields = [ ("name", js_get o "name"); ("email", js_get o "email");
                        ("password", js_get o "password") ]
          /\ truthy (js_get o "name") = true
          /\ truthy (js_get o "email") = true
          /\ truthy (js_get o "password") = true
          /\ length_below (js_get o "password") 6 = Ok false
          /\ User_findOne [("email", js_get o "email")] d = Ok None
          /\ db s' = snd (User_save fields d))
  /\ (forall payload, In payload (signs (log s')) ->
        exists fields user,
          saves (log s') = [fields]
          /\ fst (User_save fields d) = Ok user
          /\ payload = token_claims user).
Proof.
  cbn zeta. rewrite signup_catch_keeps_state.
  destruct (signup_try request now (mkRoute d [])) as [res s'] eqn:H.
  exact (signup_try_trace request now d res s' H).
Qed.
End RouteExtras.

Section RouteExtras2.
Context {lib : Jsonwebtoken} {proc : Process} {rt : Runtime} {model : UserModel}.

Lemma failure_answers (good code : Z) (bad : list Z) (message : string) :
  In code bad -> answers_with good bad (failure code message).
Proof. intros Hin. right. split; [exact Hin | eexists; reflexivity]. Qed.

Ltac answer H :=
  injection H as <- <-;
  first [ apply failure_answers; cbn; tauto
        | left; split; reflexivity ].

Lemma signup_try_answers (request : http_request) (now : Z)
  (s s' : route_state) (r : response) :
  signup_try request now s = (Ok r, s') -> answers_with 201 [400; 409; 500] r.
Proof.
  run_route. intros H. each_path H; try discriminate; answer H.
Qed.

Lemma login_try_answers (request : http_request) (now : Z)
  (s s' : route_state) (r : response) :
  login_try request now s = (Ok r, s') -> answers_with 200 [400; 401; 500] r.
Proof.
  run_route. intros H. each_path H; try discriminate; answer H.
Qed.

Lemma me_try_answers (request : http_request) (now : Z)
  (s s' : route_state) (r : response) :
  me_try request now s = (Ok r, s') -> answers_with 200 [401; 404; 500] r.
Proof.
  run_route. intros H. each_path H; try discriminate; answer H.
Qed.

(** A failure carries neither a user nor a token. *)
Lemma answers_with_failure (good : Z) (bad : list Z) (r : response) :
  answers_with good bad r -> ~ In good bad ->
  (succeeded r <-> status r = good)
  /\ (~ succeeded r ->
      js_get (body r) "user" = JUndefined /\ js_get (body r) "token" = JUndefined).
Proof.
  intros [[Hst Hs]|[Hin [message Hr]]] Hgood.
  - split; [tauto | contradiction].
  - split.
    + split.
      * intros Hs. rewrite Hr in Hs. discriminate.
      * intros Hst. rewrite Hst in Hin. contradiction.
    + intros _. rewrite Hr. split; reflexivity.
Qed.

(** X12. Whenever a route answers, it is with one of its own statuses:
    signup with 201, 400, 409 or 500, login with 200, 400, 401 or 500, me
    with 200, 401, 404 or 500; the body says success exactly on 201
    (signup) or 200 (login, me), and every other answer is a plain failure,
    a success flag that is false and a message, with no user and no token.
    Login, whose [catch] reads nothing of the error, answers whatever the
    request. *)
Theorem routes_answer_with_fixed_statuses (request : http_request) (now : Z)
  (s : route_state) :
  (forall r s', signup_POST request now s = (Ok r, s') ->
     answers_with 201 [400; 409; 500] r
     /\ (succeeded r <-> status r = 201)
     /\ (~ succeeded r ->
         js_get (body r) "user" = JUndefined
         /\ js_get (body r) "token" = JUndefined))
  /\ (forall r s', login_POST request now s = (Ok r, s') ->
        answers_with 200 [400; 401; 500] r
        /\ (succeeded r <-> status r = 200)
        /\ (~ succeeded r ->
            js_get (body r) "user" = JUndefined
            /\ js_get (body r) "token" = JUndefined))
  /\ (forall r s', me_GET request now s = (Ok r, s') ->
        answers_with 200 [401; 404; 500] r
        /\ (succeeded r <-> status r = 200)
        /\ (~ succeeded r ->
            js_get (body r) "user" = JUndefined
            /\ js_get (body r) "token" = JUndefined))
  /\ (exists r s', login_POST request now s = (Ok r, s')).
Proof.
  assert (Hall : forall good bad r,
             answers_with good bad r -> ~ In good bad ->
             answers_with good bad r
             /\ (succeeded r <-> status r = good)
             /\ (~ succeeded r ->
                 js_get (body r) "user" = JUndefined
                 /\ js_get (body r) "token" = JUndefined)).
  { intros good bad r Ha Hn.
    destruct (answers_with_failure good bad r Ha Hn). auto. }
  assert (Hs : ~ In 201 [400; 409; 500])
    by (cbn; intros [H|[H|[H|[]]]]; discriminate).
  assert (Hl : ~ In 200 [400; 401; 500])
    by (cbn; intros [H|[H|[H|[]]]]; discriminate).
  assert (Hm : ~ In 200 [401; 404; 500])
    by (cbn; intros [H|[H|[H|[]]]]; discriminate).
  unfold signup_POST, login_POST, me_GET, try_catch. repeat apply conj.
  - intros r s' Hrun. apply Hall; [|exact Hs].
    destruct (signup_try request now s) as [[r1|e] s1] eqn:H.
    + injection Hrun as <- <-. exact (signup_try_answers _ _ _ _ _ H).
    + unfold signup_catch, ret, throw in Hrun.
      destruct (String.eqb (exn_name e) "ValidationError");
        [destruct (exn_errors e); [|discriminate]|];
        injection Hrun as <- <-; apply failure_answers; cbn; tauto.
  - intros r s' Hrun. apply Hall; [|exact Hl].
    destruct (login_try request now s) as [[r1|e] s1] eqn:H.
    + injection Hrun as <- <-. exact (login_try_answers _ _ _ _ _ H).
    + unfold ret in Hrun. injection Hrun as <- <-.
      apply failure_answers; cbn; tauto.
  - intros r s' Hrun. apply Hall; [|exact Hm].
    destruct (me_try request now s) as [[r1|e] s1] eqn:H.
    + injection Hrun as <- <-. exact (me_try_answers _ _ _ _ _ H).
    + unfold me_catch, ret in Hrun.
      destruct (String.eqb (exn_message e) "Invalid token");
        injection Hrun as <- <-; apply failure_answers; cbn; tauto.
  - destruct (login_try request now s) as [[r1|e] s1]; unfold ret; eauto.
Qed.

(** X13. When the connection fails the routes answer 500 after that one
    call and before they look at the request: login always, signup unless
    the exception is named ValidationError, me unless its message is
    Invalid token; in particular me answers 500 without reading the
    Authorization header. *)
Theorem connection_failure_first (request : http_request) (now : Z) (d : store)
  (e : exn)
  (Hdown : dbConnect d = Throw e) :
  login_POST request now (mkRoute d [])
  = (Ok (failure 500 "Internal server error"), mkRoute d [DbConnect])
  /\ (exn_name e <> "ValidationError" ->
      signup_POST request now (mkRoute d [])
      = (Ok (failure 500 "Internal server error"), mkRoute d [DbConnect]))
  /\ (exn_message e <> "Invalid token" ->
      me_GET request now (mkRoute d [])
      = (Ok (failure 500 "Internal server error"), mkRoute d [DbConnect])).
Proof.
  split; [|split].
  - run_route. step Hdown. reflexivity.
  - intros Hn. apply String.eqb_neq in Hn. run_route. step Hdown.
    now rewrite Hn.
  - intros Hn. apply String.eqb_neq in Hn. run_route. step Hdown.
    now rewrite Hn.
Qed.

(** X14. With a live connection, me answers 401 without asking the store:
    Access denied. No token provided. when the header is not Bearer, a
    space and a non-empty token, and Invalid token when the token fails
    verification. *)
Theorem me_refuses_before_lookup (request : http_request) (now : Z) (d : store)
  (Hconn : dbConnect d = Ok tt) :
  ((forall token, token <> "" ->
      request_authorization request <> Some ("Bearer " ++ token)) ->
   me_GET request now (mkRoute d [])
   = (Ok (failure 401 "Access denied. No token provided."),
      mkRoute d [DbConnect]))
  /\ (forall token e,
        request_authorization request = Some ("Bearer " ++ token) ->
        token <> "" ->
        verifyToken token now = Throw e ->
        me_GET request now (mkRoute d [])
        = (Ok (failure 401 "Invalid token"), mkRoute d [DbConnect])).
Proof.
  split.
  - intros Hno. run_route. step Hconn.
    destruct (extractTokenFromHeader (request_authorization request))
      as [token|] eqn:Hx; [|reflexivity].
    destruct (truthy (JStr token)) eqn:Ht; [|reflexivity].
    destruct (proj1 (bearer_token _ _) (conj Hx Ht)) as [Hh Hne].
    destruct (Hno token Hne Hh).
  - intros token e Hh Hne Hv.
    destruct (proj2 (bearer_token (Some ("Bearer " ++ token)) token)
                (conj eq_refl Hne)) as [Hx Ht].
    rewrite (verifyToken_throws token now e Hv) in Hv.
    run_route. step Hconn. rewrite Hh, Hx, Ht. red_route. step Hv.
    reflexivity.
Qed.

(** X15. Signup saves before it signs: when signing fails after the save
    succeeded, the answer is 500 Internal server error and the store is the
    one with the user saved. *)
Theorem signup_not_atomic (request : http_request) (now : Z) (d d' : store)
  (o user : jsobj) (e : exn)
  (Hconn : dbConnect d = Ok tt)
  (Hjson : request_json request = Ok (JObj o))
  (Hall : all_present o = true)
  (Hlen : length_below (js_get o "password") 6 = Ok false)
  (Hnew : User_findOne [("email", js_get o "email")] d = Ok None)
  (Hsaved : User_save (signup_fields o) d = (Ok user, d'))
  (Hsign : generateToken (token_claims user) now = Throw e)
  (Hname : exn_name e <> "ValidationError") :
  signup_POST request now (mkRoute d [])
  = (Ok (failure 500 "Internal server error"),
     mkRoute d' [DbConnect; FindOne [("email", js_get o "email")];
                 Save (signup_fields o); Sign (token_claims user)]).
Proof.
  apply String.eqb_neq in Hname.
  unfold signup_POST, try_catch.
  rewrite (signup_validated request now d o Hconn Hjson Hall Hlen), Hnew, Hsaved.
  cbn zeta. rewrite Hsign. unfold signup_catch. now rewrite Hname.
Qed.

(** X16. The length check of signup measures only what has a length: a
    password sent as a non-zero number or as [true] passes it whatever its
    size, and with no user of that email in the store the route goes on to
    ask the store to save those fields. *)
Theorem signup_passes_unmeasurable_password (request : http_request) (now : Z)
  (d : store) (o : jsobj)
  (Hconn : dbConnect d = Ok tt)
  (Hjson : request_json request = Ok (JObj o))
  (Hname : truthy (js_get o "name") = true)
  (Hemail : truthy (js_get o "email") = true)
  (Hpassword : (exists n, js_get o "password" = JNum n /\ n <> 0)
               \/ js_get o "password" = JBool true)
  (Hnew : User_findOne [("email", js_get o "email")] d = Ok None) :
  length_below (js_get o "password") 6 = Ok false
  /\ exists rest,
       log (snd (signup_POST request now (mkRoute d [])))
       = ([DbConnect; FindOne [("email", js_get o "email")];
           Save (signup_fields o)] ++ rest)%list.
Proof.
  assert (Hp : truthy (js_get o "password") = true
               /\ length_below (js_get o "password") 6 = Ok false).
  { destruct Hpassword as [(n & -> & Hn) | ->]; split; try reflexivity.
    cbn. now apply negb_true_iff, Z.eqb_neq. }
  destruct Hp as [Hp Hlen]. split; [exact Hlen|].
  assert (Hall : all_present o = true)
    by (unfold all_present; now rewrite Hname, Hemail, Hp).
  rewrite signup_catch_keeps_state,
    (signup_validated request now d o Hconn Hjson Hall Hlen), Hnew.
  destruct (User_save (signup_fields o) d) as [[user|e] d'].
  - cbn zeta.
    destruct (generateToken (token_claims user) now); eexists; reflexivity.
  - exists []. reflexivity.
Qed.

End RouteExtras2.

Section TokenNamesUser.
Context {lib : Jsonwebtoken} {proc : Process} {model : UserModel}.

(** X17. The token signed for a user carries that user's identifier,
    email, name and role, and presented to me as a bearer token before it
    expires it makes the route ask the store for exactly that identifier
    with the projection -password. *)
Theorem issued_token_names_user (user : jsobj) (issuedAt span now : Z)
  (request : http_request) (d : store)
  (Hspan : ms JWT_EXPIRES_IN = Some span)
  (Hparse : let j := jws_sign (token_claims user) JWT_SECRET span issuedAt in
            jws_decode (jws_encode j) = Some j
            /\ jws_encode j <> ""
            /\ request_authorization request = Some ("Bearer " ++ jws_encode j))
  (Hfresh : now < 1000 * (clockTimestamp issuedAt + span / 1000))
  (Hconn : dbConnect d = Ok tt) :
  exists token decoded,
    generateToken (token_claims user) issuedAt = Ok token
    /\ verifyToken token now = Ok decoded
    /\ payload_get decoded "userId" = js_get user "_id"
    /\ payload_get decoded "email" = js_get user "email"
    /\ payload_get decoded "name" = js_get user "name"
    /\ payload_get decoded "role" = js_get user "role"
    /\ log (snd (me_GET request now (mkRoute d [])))
       = [DbConnect; FindById (js_get user "_id") "-password"].
Proof.
  cbn zeta in Hparse. destruct Hparse as (Hparse & Hne & Hheader).
  assert (Hsign : generateToken (token_claims user) issuedAt
                  = Ok (jws_encode (jws_sign (token_claims user) JWT_SECRET span
                                      issuedAt))).
  { unfold generateToken, jwt_sign.
    change (claim_is_number (token_claims user) "iat") with true.
    change (claim_is_number (token_claims user) "exp") with true.
    change (claim_is_number (token_claims user) "nbf") with true.
    change (js_has (token_claims user) "exp") with false.
    cbn [negb andb]. now rewrite Hspan. }
  assert (Hv : verifyToken
                 (jws_encode (jws_sign (token_claims user) JWT_SECRET span issuedAt))
                 now
               = Ok (stamped (token_claims user) (clockTimestamp issuedAt)
                       (clockTimestamp issuedAt + span / 1000))).
  { apply (verifyToken_issued (token_claims user) JWT_SECRET JWT_EXPIRES_IN _
             span issuedAt now Hsign Hspan Hparse).
    split; [reflexivity|]. split; [exact Hfresh|].
    intros n Hn. discriminate. }
  do 2 eexists. split; [exact Hsign|]. split; [exact Hv|].
  repeat split.
  rewrite (me_verified request now d _ _ Hconn Hheader Hne Hv). cbn zeta.
  change (payload_get (stamped (token_claims user) (clockTimestamp issuedAt)
                         (clockTimestamp issuedAt + span / 1000)) "userId")
    with (js_get user "_id").
  destruct (User_findById_select _ _ d) as [[u|]|e]; try reflexivity.
  unfold me_catch, ret. destruct (String.eqb _ _); reflexivity.
Qed.
End TokenNamesUser.

(** ** The modal and the navigation bar *)

Lemma handleSwitchMode_known (m : string) : known_mode (handleSwitchMode m).
Proof. unfold handleSwitchMode. destruct (String.eqb m "login"); [right|left]; reflexivity. Qed.

Lemma ui_step_known (s : ui_state) (e : ui_event) :
  known_mode (authMode s) /\ known_mode (modal_mode s) ->
  known_mode (authMode (ui_step s e)) /\ known_mode (modal_mode (ui_step s e)).
Proof.
  intros [Ha Hm]. destruct e; cbn; unfold known_mode in *.
  - split; [auto|]. destruct (String.eqb (authMode s) "login"); auto.
  - split; [auto|]. destruct (String.eqb (authMode s) "signup"); auto.
  - split; [auto | apply handleSwitchMode_known].
  - auto.
Qed.

Lemma fold_known (events : list ui_event) (s : ui_state) :
  known_mode (authMode s) /\ known_mode (modal_mode s) ->
  known_mode (authMode (fold_left ui_step events s))
  /\ known_mode (modal_mode (fold_left ui_step events s)).
Proof.
  revert s. induction events as [|e events IH]; intros s H; cbn.
  - exact H.
  - apply IH, ui_step_known, H.
Qed.

(** X18. After any sequence of clicks the mode of the modal is login or
    signup, so two switches bring it back; it shows nothing exactly when
    it is closed, and when open it shows Sign In with the login form or
    Create Account with the signup form. *)
Theorem modal_mode_stays_known (events : list ui_event) :
  let s := ui_run events in
  known_mode (modal_mode s)
  /\ handleSwitchMode (handleSwitchMode (modal_mode s)) = modal_mode s
  /\ (ui_view s = None <-> authModalOpen s = false)
  /\ (forall v, ui_view s = Some v ->
        (modal_mode s = "login" /\ v = mkView "Sign In" LoginForm)
        \/ (modal_mode s = "signup" /\ v = mkView "Create Account" SignupForm)).
Proof.
  cbn zeta.
  destruct (fold_known events ui_initial) as [_ Hm];
    [split; left; reflexivity|].
  fold (ui_run events) in Hm. split; [exact Hm|]. split; [|split].
  - destruct Hm as [-> | ->]; reflexivity.
  - unfold ui_view, AuthModal. destruct (authModalOpen (ui_run events)); cbn;
      split; congruence.
  - intros v. unfold ui_view, AuthModal.
    destruct (authModalOpen (ui_run events)); cbn; [|discriminate].
    intros H. injection H as <-.
    destruct Hm as [-> | ->]; [left | right]; split; reflexivity.
Qed.

(** X19. The Login button opens the modal; it puts the modal in login mode
    when the bar's mode was not login before, and leaves the modal's mode
    as it is when the bar's mode was login already, so that after Login,
    switch, close, Login the modal opens on Create Account. *)
Theorem login_button_keeps_switched_mode (s : ui_state) :
  (authMode s = "login" ->
   modal_mode (ui_step s ClickLogin) = modal_mode s)
  /\ (authMode s <> "login" ->
      modal_mode (ui_step s ClickLogin) = "login")
  /\ authModalOpen (ui_step s ClickLogin) = true
  /\ ui_view (ui_run [ClickLogin; SwitchMode; CloseModal; ClickLogin])
     = Some (mkView "Create Account" SignupForm).
Proof.
  repeat split.
  - intros H. cbn. now rewrite H.
  - intros H. cbn. apply String.eqb_neq in H. now rewrite H.
Qed.
(** ** Further worked examples *)

Lemma verified_claims_were_signed_witness :
  signed_with (lib := Sample.jwt) "your-super-secret-jwt-key" Sample.ann_token
  /\ 5000 < 1000 * 605800.
Proof.
  assert (Hok : verifyToken (lib := Sample.jwt) (proc := Sample.unset)
                  Sample.ann_token 5000 = Ok Sample.ann_decoded)
    by (vm_compute; reflexivity).
  destruct (verified_claims_were_signed (lib := Sample.jwt) (proc := Sample.unset)
              Sample.ann_token 5000 Sample.ann_decoded Hok)
    as (Hsigned & _ & Hexp & _).
  split; [exact Hsigned | apply Hexp; reflexivity].
Defined.

Lemma token_accepted_by_secret_alone_witness :
  verifyToken (lib := Sample.jwt) (proc := Sample.short_lived) Sample.ann_token
    5000000
  = Ok Sample.ann_decoded
  /\ verifyToken (lib := Sample.jwt) (proc := Sample.configured)
       Sample.ann_token 5000
     = Throw (Error "Invalid token").
Proof.
  assert (Hissued : generateToken (lib := Sample.jwt) (proc := Sample.unset)
                      Sample.ann_claims 1000500 = Ok Sample.ann_token)
    by (vm_compute; reflexivity).
  assert (Hparse : jws_decode (Jsonwebtoken := Sample.jwt) Sample.ann_token
                   = Some (jws_sign (lib := Sample.jwt) Sample.ann_claims
                             (JWT_SECRET (proc := Sample.unset)) 604800000
                             1000500))
    by (vm_compute; reflexivity).
  split.
  - destruct (token_accepted_by_secret_alone (lib := Sample.jwt)
                Sample.unset Sample.short_lived Sample.ann_claims 1000500
                604800000 Sample.ann_token eq_refl Hissued Hparse)
      as (_ & _ & Hsame & _).
    apply Hsame; [reflexivity | reflexivity | intros n Hn; discriminate].
  - destruct (token_accepted_by_secret_alone (lib := Sample.jwt)
                Sample.unset Sample.configured Sample.ann_claims 1000500
                604800000 Sample.ann_token eq_refl Hissued Hparse)
      as (_ & _ & _ & Hdiff).
    apply Hdiff. intros H. apply sample_key_separation in H. discriminate.
Defined.

Lemma gate_passes_response_through_witness :
  fst (run_gate (lib := Sample.jwt) (proc := Sample.unset) Sample.ok_handler
         5000 (Sample.bearer Sample.ann_token))
  = Ok (Resolved (mkResponse 200 [("success", JBool true)])).
Proof.
  refine (proj1 (gate_passes_response_through (lib := Sample.jwt)
                   (proc := Sample.unset) Sample.ok_handler 5000
                   (Sample.bearer Sample.ann_token) Sample.ann_token
                   Sample.ann_decoded
                   (mkResponse 200 [("success", JBool true)]) eq_refl _ _ eq_refl)).
  - discriminate.
  - vm_compute. reflexivity.
Defined.

Lemma gate_masks_handler_exception_witness :
  fst (run_gate (lib := Sample.jwt) (proc := Sample.unset)
         Sample.throwing_handler 5000 (Sample.bearer Sample.ann_token))
  = Ok (Resolved (failure 401 "Invalid token.")).
Proof.
  refine (proj1 (proj1 (gate_masks_handler_exception (lib := Sample.jwt)
                          (proc := Sample.unset) Sample.throwing_handler 5000
                          (Sample.bearer Sample.ann_token) Sample.ann_token
                          Sample.ann_decoded
                          (Error "handler failed") eq_refl _ _) eq_refl)).
  - discriminate.
  - vm_compute. reflexivity.
Defined.

Lemma gate_reports_invalid_token_witness :
  run_gate (lib := Sample.jwt) (proc := Sample.unset) Sample.ok_handler
    605800000 (Sample.bearer Sample.ann_token)
  = (Ok (Resolved (failure 401 "Invalid token.")),
     mkGate (Sample.bearer Sample.ann_token) [Verify Sample.ann_token]).
Proof.
  refine (proj1 (gate_reports_invalid_token (lib := Sample.jwt)
                   (proc := Sample.unset) Sample.ok_handler 605800000
                   (Sample.bearer Sample.ann_token) Sample.ann_token
                   (Error "Invalid token") eq_refl _ _)).
  - discriminate.
  - vm_compute. reflexivity.
Defined.

Lemma login_requires_both_fields_witness :
  login_POST (lib := Sample.jwt) (proc := Sample.unset) (model := Sample.users)
    (Sample.post (Sample.login_body "ann@x.com" "")) 5000
    (Sample.sample_state Sample.registered)
  = (Ok (failure 400 "Please provide email and password"),
     mkRoute (model := Sample.users) Sample.registered [DbConnect]).
Proof.
  apply (login_requires_both_fields (lib := Sample.jwt) (proc := Sample.unset)
           (model := Sample.users)
           (Sample.post (Sample.login_body "ann@x.com" "")) 5000
           Sample.registered
           [("email", JStr "ann@x.com"); ("password", JStr "")]);
    reflexivity.
Defined.

Lemma login_success_witness :
  Sample.status_of
    (login_POST (lib := Sample.jwt) (proc := Sample.unset) (model := Sample.users)
       (Sample.post (Sample.login_body "ann@x.com" "secret1")) 1000500
       (Sample.sample_state Sample.registered)) = Some 200
  /\ db (snd (login_POST (lib := Sample.jwt) (proc := Sample.unset)
                (model := Sample.users)
                (Sample.post (Sample.login_body "ann@x.com" "secret1")) 1000500
                (Sample.sample_state Sample.registered)))
     = Sample.registered.
Proof.
  unfold Sample.sample_state.
  rewrite (login_success (lib := Sample.jwt) (proc := Sample.unset)
             (model := Sample.users)
             (Sample.post (Sample.login_body "ann@x.com" "secret1")) 1000500
             Sample.registered
             [("email", JStr "ann@x.com"); ("password", JStr "secret1")]
             (hd [] Sample.registered) Sample.ann_token
             eq_refl eq_refl eq_refl eq_refl eq_refl eq_refl
             ltac:(vm_compute; reflexivity)).
  split; reflexivity.
Defined.

Lemma connection_failure_first_witness :
  me_GET (lib := Sample.jwt) (proc := Sample.unset) (model := Sample.offline)
    (Sample.me_request Sample.ann_token) 5000
    (mkRoute (model := Sample.offline) tt [])
  = (Ok (failure 500 "Internal server error"),
     mkRoute (model := Sample.offline) tt [DbConnect]).
Proof.
  apply (connection_failure_first (lib := Sample.jwt) (proc := Sample.unset)
           (rt := Sample.runtime) (model := Sample.offline)
           (Sample.me_request Sample.ann_token) 5000 tt
           (Error "connect ECONNREFUSED") eq_refl).
  discriminate.
Defined.

Lemma me_refuses_before_lookup_witness :
  me_GET (lib := Sample.jwt) (proc := Sample.unset) (model := Sample.users)
    (Sample.me_request Sample.ann_token) 605800000
    (Sample.sample_state Sample.registered)
  = (Ok (failure 401 "Invalid token"),
     mkRoute (model := Sample.users) Sample.registered [DbConnect]).
Proof.
  refine (proj2 (me_refuses_before_lookup (lib := Sample.jwt)
                   (proc := Sample.unset) (model := Sample.users)
                   (Sample.me_request Sample.ann_token) 605800000
                   Sample.registered eq_refl)
            Sample.ann_token (Error "Invalid token") eq_refl _ _).
  - discriminate.
  - vm_compute. reflexivity.
Defined.

Lemma signup_not_atomic_witness :
  signup_POST (lib := Sample.jwt) (proc := Sample.misconfigured)
    (rt := Sample.runtime) (model := Sample.users)
    (Sample.post Sample.ann_body) 1000500 (Sample.sample_state [])
  = (Ok (failure 500 "Internal server error"),
     mkRoute (model := Sample.users) Sample.registered
       [DbConnect; FindOne [("email", JStr "ann@x.com")];
        Save [("name", JStr "Ann"); ("email", JStr "ann@x.com");
              ("password", JStr "secret1")];
        Sign Sample.ann_claims]).
Proof.
  refine (signup_not_atomic (lib := Sample.jwt) (proc := Sample.misconfigured)
            (rt := Sample.runtime) (model := Sample.users)
            (Sample.post Sample.ann_body) 1000500 [] Sample.registered
            [("name", JStr "Ann"); ("email", JStr "ann@x.com");
             ("password", JStr "secret1")]
            (hd [] Sample.registered)
            (Error "expiresIn should be a number of seconds or string representing a timespan")
            eq_refl eq_refl eq_refl eq_refl eq_refl _ _ _).
  - vm_compute. reflexivity.
  - vm_compute. reflexivity.
  - discriminate.
Defined.

Lemma signup_passes_unmeasurable_password_witness :
  exists rest,
    log (snd (signup_POST (lib := Sample.jwt) (proc := Sample.unset)
                (rt := Sample.runtime) (model := Sample.users)
                (Sample.post (JObj Sample.numeric_body)) 1000500
                (mkRoute (model := Sample.users) Sample.registered [])))
    = ([DbConnect; FindOne [("email", JStr "bob@x.com")];
        Save Sample.numeric_body] ++ rest)%list.
Proof.
  refine (proj2 (signup_passes_unmeasurable_password (lib := Sample.jwt)
                   (proc := Sample.unset) (rt := Sample.runtime)
                   (model := Sample.users)
                   (Sample.post (JObj Sample.numeric_body)) 1000500
                   Sample.registered Sample.numeric_body _ _ _ _ _ _)).
  - reflexivity.
  - reflexivity.
  - reflexivity.
  - reflexivity.
  - left. exists 12345. split; [reflexivity | discriminate].
  - vm_compute. reflexivity.
Defined.

Lemma issued_token_names_user_witness :
  log (snd (me_GET (lib := Sample.jwt) (proc := Sample.unset)
              (model := Sample.users)
              (Sample.me_request Sample.ann_token) 5000
              (Sample.sample_state Sample.registered)))
  = [DbConnect; FindById (JStr "u0") "-password"].
Proof.
  destruct (issued_token_names_user (lib := Sample.jwt) (proc := Sample.unset)
              (model := Sample.users) (hd [] Sample.registered)
              1000500 604800000 5000 (Sample.me_request Sample.ann_token)
              Sample.registered eq_refl
              ltac:(vm_compute; repeat split; discriminate)
              eq_refl eq_refl)
    as (token & decoded & _ & _ & _ & _ & _ & _ & Hlog).
  exact Hlog.
Defined.
